(** * SpiderScan: a model of [spiderscan.py] and its specification

  [spiderscan.py] is an orchestrator: it spawns external tools through
  the shell, moves one text file, and retries failed commands.  The
  development below embeds the script as functions of an explicit world
  (file system, log, event trace) in a state-and-exception monad, with
  the external tools as a parameter, and proves the properties that the
  specification lists for it.

  Modelling boundary.
  - Paths follow [pathlib.PurePosixPath]; the platform is POSIX, so
    text-mode writes leave a line feed as it is.
  - The file system is a finite map from normalised paths to nodes,
    without links and without permissions; it is changed only by the
    script and by the processes the script spawns.
  - File contents and process output are byte strings.  Text-mode reads
    check them against the locale codec and then work on the bytes,
    which is exact for ASCII-compatible codecs such as UTF-8.
  - [logging] is modelled by the list of records it is given.
    [setup_logging] opens the log file as [logging.FileHandler] does,
    so the file is created and the call can fail; the bytes that the
    handlers then write, into that file and on the stream, are the
    records of the list and are not copied into the file system.
  - Signals are outside the model: nothing interrupts the script, and
    every exception it meets derives from [Exception]. *)

From Stdlib Require Import ZArith String Ascii List Lia.
From stdpp Require Import base option list strings gmap.

Local Open Scope string_scope.
Local Open Scope list_scope.

(** ** Text layer: universal newlines *)

Module TextIO.

Definition CR : ascii := "013"%char.
Definition LF : ascii := "010"%char.

(** The decoder behind [open(name, 'r')] (newline=None): a carriage
    return, alone or followed by a line feed, reads as one line feed. *)
Fixpoint translate_newlines (s : string) : string :=
  match s with
  | EmptyString => EmptyString
  | String c s' =>
      if Ascii.eqb c CR then
        match s' with
        | EmptyString => String LF EmptyString
        | String c' s'' =>
            if Ascii.eqb c' LF then String LF (translate_newlines s'')
            else String LF (translate_newlines s')
        end
      else String c (translate_newlines s')
  end.

(** Cut a translated text after each line feed; every piece keeps its
    terminator, the last piece may lack one. *)
Fixpoint keepends (s : string) : list string :=
  match s with
  | EmptyString => []
  | String c s' =>
      if Ascii.eqb c LF then String c EmptyString :: keepends s'
      else match keepends s' with
           | [] => [String c EmptyString]
           | l :: ls => String c l :: ls
           end
  end.

(** [file.readlines()] on a text-mode file holding [content]. *)
Definition readlines (content : string) : list string :=
  keepends (translate_newlines content).

(** What [file.writelines(lines)] appends to a text-mode file. *)
Definition writelines (lines : list string) : string :=
  String.concat "" lines.

Fixpoint has_char (a : ascii) (s : string) : bool :=
  match s with
  | EmptyString => false
  | String c s' => Ascii.eqb c a || has_char a s'
  end.

End TextIO.

(** ** Paths *)

Module Paths.

(** A path is its list of components; an absolute path starts with its
    root, ["/"] or ["//"], which no other component can equal. *)
Abbreviation path := (list string).

Fixpoint split_on (sep : ascii) (s : string) : list string :=
  match s with
  | EmptyString => [EmptyString]
  | String c s' =>
      if Ascii.eqb c sep then EmptyString :: split_on sep s'
      else match split_on sep s' with
           | [] => [String c EmptyString]
           | x :: xs => String c x :: xs
           end
  end.

(** [posixpath.splitroot]: one slash or three and more give the root
    ["/"], exactly two give ["//"]. *)
Definition splitroot (s : string) : option string :=
  match s with
  | String "/" (String "/" (String "/" _)) => Some "/"
  | String "/" (String "/" _) => Some "//"
  | String "/" _ => Some "/"
  | _ => None
  end.

Definition is_part (x : string) : bool :=
  negb (String.eqb x "") && negb (String.eqb x ".").

Definition parts (s : string) : list string :=
  List.filter is_part (split_on "/" s).

(** [Path(s)] for a string [s]. *)
Definition parse_path (s : string) : path :=
  match splitroot s with
  | Some r => r :: parts s
  | None => parts s
  end.

Definition is_root (x : string) : bool :=
  String.eqb x "/" || String.eqb x "//".

(** [str(p)] *)
Definition path_str (p : path) : string :=
  match p with
  | [] => "."
  | r :: rest =>
      if is_root r then r +:+ String.concat "/" rest
      else String.concat "/" p
  end.

(** [p / name] for a single relative component [name]. *)
Definition path_div (p : path) (name : string) : path := p ++ [name].

(** [p.parent] *)
Definition parent (p : path) : path :=
  match p with
  | [r] => if is_root r then p else []
  | _ => removelast p
  end.

(** The arguments the script hands on are strings or [Path] objects;
    [Path(x)] and the f-string [{x}] treat the two differently. *)
Inductive pathlike :=
| PStr (s : string)
| PPath (p : path).

Definition Path (x : pathlike) : path :=
  match x with
  | PStr s => parse_path s
  | PPath p => p
  end.

Definition fmt (x : pathlike) : string :=
  match x with
  | PStr s => s
  | PPath p => path_str p
  end.

End Paths.

Export TextIO Paths.


(** ** The world the script runs in *)

Inductive node :=
| File (content : string)
| Dir.

(** The exceptions the script can meet; all of them derive from
    [Exception]. *)
Inductive exn :=
| CalledProcessError (returncode : Z) (cmd : string) (output : string) (err : string)
| UnicodeDecodeError (data : string)
| FileNotFoundError (msg : string)
| IsADirectoryError (msg : string)
| NotADirectoryError (msg : string)
| FileExistsError (msg : string).

Inductive level := INFO | ERROR.

Inductive spawn_api := SubprocessRun | SubprocessCall.

Inductive open_mode := ModeR | ModeW | ModeA.

(** What the script asks of the operating system, in order. *)
Inductive event :=
| EvSpawn (api : spawn_api) (cmd : string) (cwd : option string)
| EvSleep (ms : Z)
| EvOpen (p : path) (mode : open_mode)
| EvRemove (p : path)
| EvMkdir (p : path).

Record World := mkWorld {
  w_fs : gmap (list string) node;
  w_log : list (level * string);
  w_trace : list event;
  w_stdout : list string
}.

(** A finished [sh -c cmd]: its exit status, what it printed, and the
    file system it left. *)
Record Process := mkProcess {
  returncode : Z;
  stdout : string;
  stderr : string;
  fs_after : gmap (list string) node
}.

(** [argparse.Namespace] of the three options. *)
Record Namespace := mkNamespace {
  ns_domain : string;
  ns_output_dir : string;
  ns_templates : string
}.

(** Everything the script takes from outside itself.  [shell] is the
    behaviour of the external tools: it may depend on the command, the
    working directory, all that happened before and the file system.
    [utf8_decode] is [bytes.decode()], [locale_ok] tells whether the
    locale codec decodes a file, [exn_str] is [str(e)], [parse_args] is
    the argument parser ([inr code] when it exits by itself). *)
Class Env := {
  shell : string -> option string -> list event -> gmap (list string) node -> Process;
  utf8_decode : string -> option string;
  locale_ok : string -> bool;
  exn_str : exn -> string;
  banner_art : string;
  parse_args : list string -> Namespace + Z
}.

Definition set_fs (fs : gmap (list string) node) (w : World) : World :=
  mkWorld fs (w_log w) (w_trace w) (w_stdout w).

Definition add_log (l : level) (msg : string) (w : World) : World :=
  mkWorld (w_fs w) (w_log w ++ [(l, msg)]) (w_trace w) (w_stdout w).

Definition add_event (e : event) (w : World) : World :=
  mkWorld (w_fs w) (w_log w) (w_trace w ++ [e]) (w_stdout w).

Definition add_stdout (s : string) (w : World) : World :=
  mkWorld (w_fs w) (w_log w) (w_trace w) (w_stdout w ++ [s]).

(** ** State and exceptions *)

Inductive result (A : Type) :=
| Ok (a : A)
| Raise (e : exn).

Arguments Ok {A} a.
Arguments Raise {A} e.

Definition Py (A : Type) : Type := World -> result A * World.

Definition ret {A} (a : A) : Py A := fun w => (Ok a, w).

Definition raise {A} (e : exn) : Py A := fun w => (Raise e, w).

Definition bind {A B} (m : Py A) (k : A -> Py B) : Py B :=
  fun w =>
    match m w with
    | (Ok a, w') => k a w'
    | (Raise e, w') => (Raise e, w')
    end.

(** [try: m except ... as e: h e]; a handler that does not match
    re-raises. *)
Definition try_except {A} (m : Py A) (h : exn -> Py A) : Py A :=
  fun w =>
    match m w with
    | (Ok a, w') => (Ok a, w')
    | (Raise e, w') => h e w'
    end.

Declare Scope py_scope.
Delimit Scope py_scope with py.
Notation "'let*' x ':=' m 'in' k" := (bind m (fun x => k))
  (at level 10, x name, m at level 100, k at level 200) : py_scope.
Notation "m '>>' k" := (bind m (fun _ => k))
  (at level 90, right associativity) : py_scope.
Local Open Scope py_scope.

Definition logging_info (msg : string) : Py unit :=
  fun w => (Ok tt, add_log INFO msg w).

Definition logging_error (msg : string) : Py unit :=
  fun w => (Ok tt, add_log ERROR msg w).

Definition print (s : string) : Py unit :=
  fun w => (Ok tt, add_stdout s w).

Definition time_sleep (ms : Z) : Py unit :=
  fun w => (Ok tt, add_event (EvSleep ms) w).

(** ** Operating-system primitives *)

(** The current directory and the roots are always there. *)
Definition stat (fs : gmap (list string) node) (p : path) : option node :=
  match p with
  | [] => Some Dir
  | [r] => if is_root r then Some Dir else fs !! p
  | _ => fs !! p
  end.

(** [Path(x).exists()] *)
Definition path_exists (x : pathlike) : Py bool :=
  fun w => (Ok (bool_decide (is_Some (stat (w_fs w) (Path x)))), w).

(** [Path(x).is_dir()] *)
Definition path_is_dir (x : pathlike) : Py bool :=
  fun w => (Ok (match stat (w_fs w) (Path x) with Some Dir => true | _ => false end), w).

(** [open(x, 'r')]; the handle is the path it was opened at. *)
Definition open_r (x : pathlike) : Py (list string) :=
  fun w =>
    let w1 := add_event (EvOpen (Path x) ModeR) w in
    match stat (w_fs w) (Path x) with
    | Some (File _) => (Ok (Path x), w1)
    | Some Dir => (Raise (IsADirectoryError (fmt x)), w1)
    | None => (Raise (FileNotFoundError (fmt x)), w1)
    end.

(** [file.readlines()] on a handle opened for reading. *)
Definition file_readlines `{Env} (file : path) : Py (list string) :=
  fun w =>
    match w_fs w !! file with
    | Some (File content) =>
        if locale_ok content then (Ok (readlines content), w)
        else (Raise (UnicodeDecodeError content), w)
    | _ => (Ok [], w)
    end.

(** [open(x, 'w')]: creates the file or empties it. *)
Definition open_w (x : pathlike) : Py (list string) :=
  fun w =>
    let w1 := add_event (EvOpen (Path x) ModeW) w in
    match stat (w_fs w) (Path x) with
    | Some Dir => (Raise (IsADirectoryError (fmt x)), w1)
    | _ =>
        match stat (w_fs w) (parent (Path x)) with
        | Some Dir => (Ok (Path x), set_fs (<[Path x := File ""]> (w_fs w)) w1)
        | Some (File _) => (Raise (NotADirectoryError (fmt x)), w1)
        | None => (Raise (FileNotFoundError (fmt x)), w1)
        end
    end.

(** [open(x, 'a')]: creates the file when it is not there and keeps it
    as it is otherwise. *)
Definition open_a (x : pathlike) : Py (list string) :=
  fun w =>
    let w1 := add_event (EvOpen (Path x) ModeA) w in
    match stat (w_fs w) (Path x) with
    | Some Dir => (Raise (IsADirectoryError (fmt x)), w1)
    | Some (File _) => (Ok (Path x), w1)
    | None =>
        match stat (w_fs w) (parent (Path x)) with
        | Some Dir => (Ok (Path x), set_fs (<[Path x := File ""]> (w_fs w)) w1)
        | Some (File _) => (Raise (NotADirectoryError (fmt x)), w1)
        | None => (Raise (FileNotFoundError (fmt x)), w1)
        end
    end.

(** [logging.FileHandler(filename)]: the handler opens its file for
    appending when it is built. *)
Definition FileHandler (filename : string) : Py unit :=
  let* stream := open_a (PStr filename) in
  ret tt.

(** [file.writelines(lines)] on a handle opened for writing. *)
Definition file_writelines (file : path) (lines : list string) : Py unit :=
  fun w =>
    match w_fs w !! file with
    | Some (File content) =>
        (Ok tt, set_fs (<[file := File (content +:+ writelines lines)]> (w_fs w)) w)
    | _ => (Ok tt, w)
    end.

(** [os.remove(x)] *)
Definition os_remove (x : pathlike) : Py unit :=
  fun w =>
    let w1 := add_event (EvRemove (Path x)) w in
    match stat (w_fs w) (Path x) with
    | Some (File _) => (Ok tt, set_fs (delete (Path x) (w_fs w)) w1)
    | Some Dir => (Raise (IsADirectoryError (fmt x)), w1)
    | None => (Raise (FileNotFoundError (fmt x)), w1)
    end.

(** [os.mkdir(p)] *)
Definition os_mkdir (p : path) : Py unit :=
  fun w =>
    let w1 := add_event (EvMkdir p) w in
    match stat (w_fs w) p with
    | Some _ => (Raise (FileExistsError (path_str p)), w1)
    | None =>
        match stat (w_fs w) (parent p) with
        | Some Dir => (Ok tt, set_fs (<[p := Dir]> (w_fs w)) w1)
        | Some (File _) => (Raise (NotADirectoryError (path_str p)), w1)
        | None => (Raise (FileNotFoundError (path_str p)), w1)
        end
    end.

(** [Path.mkdir(parents, exist_ok)] as pathlib writes it: try, create
    the parent on ENOENT and try again, accept an existing directory.
    [depth] bounds the climb; the length of the path is enough. *)
Fixpoint path_mkdir (depth : nat) (p : path) (parents exist_ok : bool) : Py unit :=
  try_except (os_mkdir p)
    (fun e =>
       match e with
       | FileNotFoundError _ =>
           if negb parents || bool_decide (parent p = p) then raise e
           else match depth with
                | O => raise e
                | S d =>
                    path_mkdir d (parent p) true true >>
                    try_except (os_mkdir p)
                      (fun e' =>
                         match e' with
                         | FileNotFoundError _ => raise e'
                         | _ =>
                             let* d := path_is_dir (PPath p) in
                             if negb exist_ok || negb d then raise e' else ret tt
                         end)
                end
       | _ =>
           let* d := path_is_dir (PPath p) in
           if negb exist_ok || negb d then raise e else ret tt
       end).

(** [subprocess.run(cmd, shell=True, cwd=cwd, check=True, stdout=PIPE,
    stderr=PIPE)]: a working directory that is not there fails before
    anything runs; a non-zero status raises. *)
Definition subprocess_run `{Env} (cmd : string) (cwd : option string) : Py Process :=
  fun w =>
    let go :=
      let p := shell cmd cwd (w_trace w) (w_fs w) in
      let w' := add_event (EvSpawn SubprocessRun cmd cwd) (set_fs (fs_after p) w) in
      if (returncode p =? 0)%Z then (Ok p, w')
      else (Raise (CalledProcessError (returncode p) cmd (stdout p) (stderr p)), w') in
    match cwd with
    | None => go
    | Some d =>
        match stat (w_fs w) (parse_path d) with
        | Some Dir => go
        | Some (File _) => (Raise (NotADirectoryError d), w)
        | None => (Raise (FileNotFoundError d), w)
        end
    end.

(** [subprocess.call(cmd, shell=True, stdout=DEVNULL, stderr=DEVNULL)] *)
Definition subprocess_call `{Env} (cmd : string) : Py Z :=
  fun w =>
    let p := shell cmd None (w_trace w) (w_fs w) in
    (Ok (returncode p), add_event (EvSpawn SubprocessCall cmd None) (set_fs (fs_after p) w)).

(** [data.decode()] *)
Definition bytes_decode `{Env} (data : string) : Py string :=
  match utf8_decode data with
  | Some s => ret s
  | None => raise (UnicodeDecodeError data)
  end.

(** ** The [retrying] decorator *)

(** The two settings the script passes to [@retry]. *)
Record Retrying := mkRetrying {
  stop_max_attempt_number : nat;
  wait_fixed : Z
}.

(** [stop_after_attempt] *)
Definition should_stop (r : Retrying) (attempt_number : nat) : bool :=
  Nat.leb (stop_max_attempt_number r) attempt_number.

(** The loop of [Retrying.call]: run the function; a normal return ends
    the loop; any exception is retried (no [retry_on_exception] filter is
    set) unless the stop test holds, in which case it is raised again;
    otherwise sleep [wait_fixed] milliseconds and go round with the next
    attempt number.  [fuel] bounds the rounds left; see
    [retry_loop_fuel]. *)
Fixpoint retry_loop {A} (r : Retrying) (fn : Py A) (fuel attempt_number : nat) : Py A :=
  fun w =>
    match fn w with
    | (Ok v, w') => (Ok v, w')
    | (Raise e, w') =>
        if should_stop r attempt_number then (Raise e, w')
        else match fuel with
             | O => (Raise e, w')
             | S fuel' =>
                 (time_sleep (wait_fixed r) >>
                  retry_loop r fn fuel' (S attempt_number)) w'
             end
    end.

Definition retry_call {A} (r : Retrying) (fn : Py A) : Py A :=
  retry_loop r fn (stop_max_attempt_number r) 1.

(** ** spiderscan.py *)

Section Script.
Context `{Env}.

(** [logging.basicConfig] receives its two handlers already built; of
    the two, [FileHandler] acts on the world. *)
Definition setup_logging : Py unit := FileHandler "spiderscan.log".

Definition banner : Py unit :=
  print banner_art >>
  logging_info "SpiderScan started.".

(** The body of [run_command], under the decorator. *)
Definition run_command_body (command : string) (cwd : option string) : Py unit :=
  try_except
    (logging_info ("Running command: " +:+ command) >>
     let* result := subprocess_run command cwd in
     let* out := bytes_decode (stdout result) in
     logging_info out)
    (fun e =>
       match e with
       | CalledProcessError _ _ _ err =>
           logging_error ("Error occurred while running command: " +:+ exn_str e) >>
           let* msg := bytes_decode err in
           logging_error msg >>
           raise e
       | _ => raise e
       end).

(** [@retry(stop_max_attempt_number=3, wait_fixed=5000)] *)
Definition run_command_retry : Retrying := mkRetrying 3 5000.

Definition run_command (command : string) (cwd : option string) : Py unit :=
  retry_call run_command_retry (run_command_body command cwd).

Definition check_dependency (command install_command : string) : Py unit :=
  let* rc := subprocess_call command in
  if negb (rc =? 0)%Z then
    logging_info (command +:+ " not found. Installing...") >>
    run_command install_command None
  else ret tt.

Definition clone_repo (repo_url : string) (clone_dir : pathlike) : Py unit :=
  let* there := path_exists clone_dir in
  if negb there then
    run_command ("git clone " +:+ repo_url +:+ " " +:+ fmt clone_dir) None
  else
    logging_info ("Repository " +:+ fmt clone_dir +:+ " already exists.").

Definition temp_file : string := "temp_urls.txt".

Definition discovery_command (domain : string) : string :=
  "python ParamSpider/paramspider.py -d " +:+ domain +:+ " -o " +:+ temp_file.

Definition urls_txt (output_dir : pathlike) : path :=
  path_div (Path output_dir) "urls.txt".

Definition collect_urls (domain : string) (output_dir : pathlike) : Py unit :=
  logging_info ("Collecting URLs for domain: " +:+ domain) >>
  run_command (discovery_command domain) None >>
  let* urls :=
    (let* file := open_r (PStr temp_file) in
     file_readlines file) in
  let txt_file := urls_txt output_dir in
  (let* file := open_w (PPath txt_file) in
   file_writelines file urls) >>
  os_remove (PStr temp_file) >>
  logging_info ("URLs saved to " +:+ path_str txt_file).

Definition temp_path : list string := ["temp_urls.txt"].

(** The world [collect_urls] leaves on a normal return, from the world
    [w1] its discovery command left and the content [c] of the temporary
    file. *)
Definition collected (output_dir : pathlike) (c : string) (w1 : World) : World :=
  add_log INFO ("URLs saved to " +:+ path_str (urls_txt output_dir))
    (mkWorld
       (delete temp_path
          (<[urls_txt output_dir := File (writelines (readlines c))]> (w_fs w1)))
       (w_log w1)
       (w_trace w1 ++ [EvOpen temp_path ModeR; EvOpen (urls_txt output_dir) ModeW;
                       EvRemove temp_path])
       (w_stdout w1)).

Definition scanner_command (url_file template_dir : pathlike) : string :=
  "nuclei -l " +:+ fmt url_file +:+ " -t " +:+ fmt template_dir.

Definition run_nuclei (url_file template_dir : pathlike) : Py unit :=
  logging_info ("Running Nuclei with templates from: " +:+ fmt template_dir) >>
  let* url_there := path_exists url_file in
  (if negb url_there then
     logging_error ("URL file not found: " +:+ fmt url_file) >>
     raise (FileNotFoundError ("URL file not found: " +:+ fmt url_file))
   else ret tt) >>
  let* templates_there := path_exists template_dir in
  (if negb templates_there then
     logging_error ("Template directory not found: " +:+ fmt template_dir) >>
     raise (FileNotFoundError ("Template directory not found: " +:+ fmt template_dir))
   else ret tt) >>
  let command := scanner_command url_file template_dir in
  run_command command None.

End Script.

(** ** The thread pool *)

(** [concurrent.futures.ThreadPoolExecutor] at the grain of whole tasks.
    The main thread runs the statements of the [with] block; [submit]
    queues a task and returns at once; a worker may start any queued task
    while fewer than [max_workers] are running, and finishes it later;
    [result()] blocks until its future is finished and raises what the
    task raised; leaving the block waits for every future. *)
Inductive future_state :=
| Pending
| Running
| Finished (r : result unit).

Record future := mkFuture {
  fut_fn : Py unit;
  fut_state : future_state
}.

Inductive instr :=
| Submit (fn : Py unit)
| AwaitResult (i : nat).

Inductive main_state :=
| InBlock (code : list instr)
| Leaving (r : result unit)
| Left (r : result unit).

Record Pool := mkPool {
  pool_main : main_state;
  pool_futures : list future;
  pool_world : World
}.

Definition is_running (f : future) : bool :=
  match fut_state f with Running => true | _ => false end.

Definition is_finished (f : future) : bool :=
  match fut_state f with Finished _ => true | _ => false end.

Definition count_running (futs : list future) : nat :=
  length (List.filter is_running futs).

Definition count_unfinished (futs : list future) : nat :=
  length (List.filter (fun f => negb (is_finished f)) futs).

Inductive step (max_workers : nat) : Pool -> Pool -> Prop :=
| step_submit fn code futs w :
    step max_workers
      (mkPool (InBlock (Submit fn :: code)) futs w)
      (mkPool (InBlock code) (futs ++ [mkFuture fn Pending]) w)
| step_result_ok i code futs w fn u :
    futs !! i = Some (mkFuture fn (Finished (Ok u))) ->
    step max_workers
      (mkPool (InBlock (AwaitResult i :: code)) futs w)
      (mkPool (InBlock code) futs w)
| step_result_raise i code futs w fn e :
    futs !! i = Some (mkFuture fn (Finished (Raise e))) ->
    step max_workers
      (mkPool (InBlock (AwaitResult i :: code)) futs w)
      (mkPool (Leaving (Raise e)) futs w)
| step_block_end futs w :
    step max_workers
      (mkPool (InBlock []) futs w)
      (mkPool (Leaving (Ok tt)) futs w)
| step_shutdown r futs w :
    forallb is_finished futs = true ->
    step max_workers
      (mkPool (Leaving r) futs w)
      (mkPool (Left r) futs w)
| step_start i fn m futs w :
    futs !! i = Some (mkFuture fn Pending) ->
    count_running futs < max_workers ->
    step max_workers
      (mkPool m futs w)
      (mkPool m (<[i := mkFuture fn Running]> futs) w)
| step_finish i fn m futs w :
    futs !! i = Some (mkFuture fn Running) ->
    step max_workers
      (mkPool m futs w)
      (mkPool m (<[i := mkFuture fn (Finished (fst (fn w)))]> futs) (snd (fn w))).

(** Runs of the pool, with their length. *)
Inductive steps (max_workers : nat) : nat -> Pool -> Pool -> Prop :=
| steps_refl s : steps max_workers 0 s s
| steps_more k s1 s2 s3 :
    steps max_workers k s1 s2 -> step max_workers s2 s3 -> steps max_workers (S k) s1 s3.

Definition pool_init (code : list instr) (w : World) : Pool :=
  mkPool (InBlock code) [] w.

(** One schedule of the pool as a function: every task runs to its end
    as soon as it is submitted.  Under the block of [process_target] no
    schedule of the pool ends otherwise ([block_state_left]). *)
Fixpoint run_block (code : list instr) (done : list (result unit)) : Py unit :=
  match code with
  | [] => ret tt
  | Submit fn :: code' =>
      fun w => run_block code' (done ++ [fst (fn w)]) (snd (fn w))
  | AwaitResult i :: code' =>
      match done !! i with
      | Some (Raise e) => raise e
      | _ => run_block code' done
      end
  end.

Definition with_executor (code : list instr) : Py unit := run_block code [].

(** The states the pool goes through under a block that submits a task,
    awaits it, submits a second task and awaits that one, started in [w]:
    the first task is queued, runs and finishes; if it raised, the block
    is left with its exception; otherwise the second task is queued, runs
    and finishes, and the block is left with its outcome. *)
Inductive block_state (first second : Py unit) (w : World) : Pool -> Prop :=
| bs_start :
    block_state first second w
      (mkPool (InBlock [Submit first; AwaitResult 0; Submit second; AwaitResult 1]) [] w)
| bs_first_queued (running : bool) :
    block_state first second w
      (mkPool (InBlock [AwaitResult 0; Submit second; AwaitResult 1])
         [mkFuture first (if running then Running else Pending)] w)
| bs_first_finished :
    block_state first second w
      (mkPool (InBlock [AwaitResult 0; Submit second; AwaitResult 1])
         [mkFuture first (Finished (fst (first w)))] (snd (first w)))
| bs_first_raised e (left : bool) :
    fst (first w) = Raise e ->
    block_state first second w
      (mkPool (if left then Left (Raise e) else Leaving (Raise e))
         [mkFuture first (Finished (Raise e))] (snd (first w)))
| bs_second_next u :
    fst (first w) = Ok u ->
    block_state first second w
      (mkPool (InBlock [Submit second; AwaitResult 1])
         [mkFuture first (Finished (Ok u))] (snd (first w)))
| bs_second_queued u (running : bool) :
    fst (first w) = Ok u ->
    block_state first second w
      (mkPool (InBlock [AwaitResult 1])
         [mkFuture first (Finished (Ok u));
          mkFuture second (if running then Running else Pending)]
         (snd (first w)))
| bs_second_finished u :
    fst (first w) = Ok u ->
    block_state first second w
      (mkPool (InBlock [AwaitResult 1])
         [mkFuture first (Finished (Ok u));
          mkFuture second (Finished (fst (second (snd (first w)))))]
         (snd (second (snd (first w)))))
| bs_second_raised u e (left : bool) :
    fst (first w) = Ok u ->
    fst (second (snd (first w))) = Raise e ->
    block_state first second w
      (mkPool (if left then Left (Raise e) else Leaving (Raise e))
         [mkFuture first (Finished (Ok u)); mkFuture second (Finished (Raise e))]
         (snd (second (snd (first w)))))
| bs_second_returned u u' (m : main_state) :
    fst (first w) = Ok u ->
    fst (second (snd (first w))) = Ok u' ->
    m = InBlock [] \/ m = Leaving (Ok tt) \/ m = Left (Ok tt) ->
    block_state first second w
      (mkPool m
         [mkFuture first (Finished (Ok u)); mkFuture second (Finished (Ok u'))]
         (snd (second (snd (first w))))).

(** A bound on the steps a pool can still take: what the main thread
    has left to do, and what the workers have left to do. *)
Definition instr_rank (i : instr) : nat :=
  match i with Submit _ => 3 | AwaitResult _ => 1 end.

Definition main_rank (m : main_state) : nat :=
  match m with
  | InBlock code => 2 + list_sum (map instr_rank code)
  | Leaving _ => 1
  | Left _ => 0
  end.

Definition future_rank (f : future) : nat :=
  match fut_state f with Pending => 2 | Running => 1 | Finished _ => 0 end.

Definition pool_rank (s : Pool) : nat :=
  main_rank (pool_main s) + list_sum (map future_rank (pool_futures s)).

Section Orchestrator.
Context `{Env}.

(** The statements of the [with] block of [process_target]; the two
    futures are numbered in the order of their submission. *)
Definition executor_block (domain : string) (output_dir templates_dir : pathlike)
  : list instr :=
  [ Submit (collect_urls domain output_dir);
    AwaitResult 0;
    Submit (run_nuclei (PPath (urls_txt output_dir)) templates_dir);
    AwaitResult 1 ].

(** The call chain the specification compares the block with. *)
Definition sequential_chain (domain : string) (output_dir templates_dir : pathlike)
  : Py unit :=
  collect_urls domain output_dir >>
  run_nuclei (PPath (urls_txt output_dir)) templates_dir.

Definition process_target (domain : string) (output_dir templates_dir : pathlike)
  : Py unit :=
  path_mkdir (length (Path output_dir)) (Path output_dir) true true >>
  clone_repo "https://github.com/0xKayala/ParamSpider.git" (PStr "ParamSpider") >>
  run_command "pip install -r ParamSpider/requirements.txt" None >>
  clone_repo "https://github.com/MuhammadWaseem29/Fuzzingtemplates-.git" templates_dir >>
  check_dependency "nuclei -version"
    "go install -v github.com/projectdiscovery/nuclei/v2/cmd/nuclei@latest" >>
  with_executor (executor_block domain output_dir templates_dir).

(** [main] returns the status the process exits with: what [argparse]
    exits with when it rejects or answers the command line, 1 from
    [sys.exit(1)] in the handler, 0 when the function falls off its end.
    [setup_logging] and [banner] run before the [try] statement: an
    exception of theirs leaves [main]. *)
Definition main (argv : list string) : Py Z :=
  setup_logging >>
  banner >>
  match parse_args argv with
  | inr code => ret code
  | inl args =>
      try_except
        (process_target (ns_domain args) (PStr (ns_output_dir args))
           (PStr (ns_templates args)) >>
         logging_info "SpiderScan completed successfully." >>
         ret 0%Z)
        (fun e =>
           logging_error ("SpiderScan encountered an error: " +:+ exn_str e) >>
           ret 1%Z)
  end.

End Orchestrator.

(** ** Concrete environments *)

Module Demo.

Definition is_spawn (e : event) : bool :=
  match e with EvSpawn _ _ _ => true | _ => false end.

Definition spawn_count (t : list event) : nat :=
  length (List.filter is_spawn t).

(** External tools that follow a plan: the n-th process spawned exits
    with the n-th status and changes the file system by the n-th
    function; beyond the plan every process exits with [rest] and changes
    nothing. *)
Definition planned (rest : Z)
  (plan : list (Z * (gmap (list string) node -> gmap (list string) node))) : Env :=
  {| shell := fun _ _ t fs =>
       let '(rc, f) := nth (spawn_count t) plan (rest, fun m => m) in
       mkProcess rc "" "" (f fs);
     utf8_decode := Some;
     locale_ok := fun _ => true;
     exn_str := fun _ => "error";
     banner_art := "SpiderScan";
     parse_args := fun argv =>
       match argv with
       | ["-d"; d] => inl (mkNamespace d "output" "Fuzzingtemplates-/")
       | _ => inr 2%Z
       end |}.

Definition keep : gmap (list string) node -> gmap (list string) node := fun m => m.

Definition empty_world : World := mkWorld ∅ [] [] [].

Definition world_of (fs : gmap (list string) node) : World := mkWorld fs [] [] [].

(** A discovery tool that writes [c] to [temp_urls.txt]. *)
Definition tool_writes (c : string) : gmap (list string) node -> gmap (list string) node :=
  fun m => <[ ["temp_urls.txt"] := File c ]> m.

Definition creates_dir (name : string) : gmap (list string) node -> gmap (list string) node :=
  fun m => <[ [name] := Dir ]> m.

Definition two_urls : string :=
  "http://a.example/?q=1" +:+ String LF ("http://b.example/?id=2" +:+ String LF "").

(** The same two lines as a tool on another platform would end them. *)
Definition two_urls_crlf : string :=
  "http://a.example/?q=1" +:+ String CR (String LF
    ("http://b.example/?id=2" +:+ String CR (String LF ""))).

(** Every process fails. *)
Definition always_failing : Env := planned 1 [].

(** Every process succeeds and changes nothing. *)
Definition always_fine : Env := planned 0 [].

(** The first process is a discovery tool that finds two URLs. *)
Definition discovery_ok : Env := planned 0 [(0%Z, tool_writes two_urls)].

(** A whole run in which everything works: the two clones create their
    directories, the scanner is installed, the discovery tool finds two
    URLs, the scan succeeds. *)
Definition all_goes_well : Env :=
  planned 0 [ (0%Z, creates_dir "ParamSpider"); (0%Z, keep);
              (0%Z, creates_dir "Fuzzingtemplates-"); (0%Z, keep);
              (0%Z, tool_writes two_urls); (0%Z, keep) ].

(** The scanner fails once and then succeeds. *)
Definition scanner_flaky : Env := planned 0 [(1%Z, keep)].

Definition output_world : World := world_of {[ ["output"] := Dir ]}.

(** The output directory with a URL list in it, and the templates. *)
Definition scan_world : World :=
  world_of (<[ ["output"; "urls.txt"] := File two_urls ]>
            (<[ ["Fuzzingtemplates-"] := Dir ]> {[ ["output"] := Dir ]})).

(** The worlds of a collection for ["example.com"] into ["output"]:
    where it starts, what the discovery tool leaves, where it ends. *)
Definition collecting : World :=
  add_log INFO ("Collecting URLs for domain: " +:+ "example.com") output_world.

Definition discovered : World :=
  snd (@run_command discovery_ok (discovery_command "example.com") None collecting).

Definition collected_world : World :=
  snd (@collect_urls discovery_ok "example.com" (PStr "output") output_world).

Definition discovery_failed : World :=
  snd (@run_command always_failing (discovery_command "example.com") None collecting).

(** The block of [process_target] for ["example.com"], and the state of
    the pool after a whole run of it. *)
Definition demo_block : list instr :=
  @executor_block discovery_ok "example.com" (PStr "output") (PStr "output").

Definition scanned_world : World :=
  snd (@run_nuclei discovery_ok (PPath (urls_txt (PStr "output"))) (PStr "output")
         collected_world).


(** A discovery tool that ends its lines with carriage return and line
    feed. *)
Definition discovery_crlf : Env := planned 0 [(0%Z, tool_writes two_urls_crlf)].

(** One line that is not text in UTF-8: no UTF-8 text holds the byte
    255. *)
Definition not_text : string := String "255"%char (String LF "").

(** A discovery tool that writes it, under a locale codec that refuses
    the byte 255, as UTF-8 does. *)
Definition discovery_not_text : Env :=
  {| shell := @shell (planned 0 [(0%Z, tool_writes not_text)]);
     utf8_decode := Some;
     locale_ok := fun c => negb (has_char "255"%char c);
     exn_str := fun _ => "error";
     banner_art := "SpiderScan";
     parse_args := fun _ => inr 2%Z |}.

(** A directory at the place of the URL list. *)
Definition urls_is_a_directory : World :=
  world_of (<[ ["output"; "urls.txt"] := Dir ]> {[ ["output"] := Dir ]}).

(** Process output that is not text. *)
Definition undecodable : Env :=
  {| shell := @shell always_fine;
     utf8_decode := fun _ => None;
     locale_ok := @locale_ok always_fine;
     exn_str := @exn_str always_fine;
     banner_art := @banner_art always_fine;
     parse_args := @parse_args always_fine |}.

(** Every command fails twice and works the third time; the check for
    the scanner fails. *)
Definition third_time_lucky : Env :=
  planned 0 [ (1%Z, keep); (1%Z, keep); (0%Z, creates_dir "ParamSpider");
              (1%Z, keep); (1%Z, keep); (0%Z, keep);
              (1%Z, keep); (1%Z, keep); (0%Z, creates_dir "Fuzzingtemplates-");
              (1%Z, keep);
              (1%Z, keep); (1%Z, keep); (0%Z, keep);
              (1%Z, keep); (1%Z, keep); (0%Z, tool_writes two_urls);
              (1%Z, keep); (1%Z, keep); (0%Z, keep) ].

(** A regular file where the output directory should be. *)
Definition file_in_the_way : World := world_of {[ ["output"] := File "" ]}.

(** A collection without an output directory to write to. *)
Definition collect_failed : World :=
  snd (@collect_urls discovery_ok "example.com" (PStr "output") empty_world).

(** The ends of a whole run that works. *)
Definition started : World :=
  snd ((setup_logging >> @banner all_goes_well) empty_world).

(** A directory where the log file should be. *)
Definition log_is_a_directory : World := world_of {[ ["spiderscan.log"] := Dir ]}.

Definition target_done : World :=
  snd (@process_target all_goes_well "example.com" (PStr "output")
         (PStr "Fuzzingtemplates-/") empty_world).

Definition main_done : World :=
  snd (@main all_goes_well ["-d"; "example.com"] empty_world).

Definition demo_left : Pool :=
  mkPool (Left (Ok tt))
    [ mkFuture (@collect_urls discovery_ok "example.com" (PStr "output")) (Finished (Ok tt));
      mkFuture (@run_nuclei discovery_ok (PPath (urls_txt (PStr "output"))) (PStr "output"))
        (Finished (Ok tt)) ]
    scanned_world.

End Demo.

(** How often [cmd] was spawned through [api] in a trace. *)
Definition spawn_matches (api : spawn_api) (cmd : string) (e : event) : bool :=
  match e, api with
  | EvSpawn SubprocessRun c _, SubprocessRun => String.eqb c cmd
  | EvSpawn SubprocessCall c _, SubprocessCall => String.eqb c cmd
  | _, _ => false
  end.

Definition spawned (api : spawn_api) (cmd : string) (t : list event) : nat :=
  length (List.filter (spawn_matches api cmd) t).

(** The events of one [run_command cmd cwd] whose working directory is
    there: one, two or three executions, 5000 ms apart. *)
Definition runner_events (cmd : string) (cwd : option string) (n : nat) : list event :=
  match n with
  | 1 => [EvSpawn SubprocessRun cmd cwd]
  | 2 => [EvSpawn SubprocessRun cmd cwd; EvSleep 5000; EvSpawn SubprocessRun cmd cwd]
  | 3 => [EvSpawn SubprocessRun cmd cwd; EvSleep 5000; EvSpawn SubprocessRun cmd cwd;
          EvSleep 5000; EvSpawn SubprocessRun cmd cwd]
  | _ => []
  end.

(** Events that touch no file by the script's own hand. *)
Definition is_file_event (e : event) : bool :=
  match e with
  | EvOpen _ _ | EvRemove _ | EvMkdir _ => true
  | _ => false
  end.

(** Sleeps of the retry delay. *)
Definition is_sleep_5000 (e : event) : bool :=
  match e with EvSleep ms => (ms =? 5000)%Z | _ => false end.


(** What making directories may do to a world: record [os.mkdir] calls
    and add to the file system; the log and the output stay, and nothing
    that was in the file system is removed or replaced. *)
Definition mkdir_frame (w w' : World) : Prop :=
  (exists t, w_trace w' = w_trace w ++ t /\ Forall (fun e => exists q, e = EvMkdir q) t)
  /\ w_log w' = w_log w
  /\ w_stdout w' = w_stdout w
  /\ w_fs w ⊆ w_fs w'.

(** [m] never spawns [cmd] through [api]: whatever the world, the events
    it adds to the trace hold no such execution. *)
Definition never_spawns (api : spawn_api) (cmd : string) {A} (m : Py A) : Prop :=
  forall w, exists t,
    w_trace (snd (m w)) = w_trace w ++ t /\ spawned api cmd t = 0.

(** [m] runs [cmd] only at its end, at most three times and 5000 ms
    apart, and only right after the event [ev]. *)
Definition runs_only_after (cmd : string) (ev : event) {A} (m : Py A) : Prop :=
  forall w, exists t1 n,
    n <= 3
    /\ w_trace (snd (m w)) = w_trace w ++ t1 ++ runner_events cmd None n
    /\ spawned SubprocessRun cmd t1 = 0
    /\ (1 <= n -> last t1 = Some ev).

(** The processes spawned and the time slept in a stretch of the trace. *)
Definition count_spawns (t : list event) : nat :=
  length (List.filter (fun e => match e with EvSpawn _ _ _ => true | _ => false end) t).

Fixpoint slept_ms (t : list event) : Z :=
  match t with
  | [] => 0
  | EvSleep ms :: t' => ms + slept_ms t'
  | _ :: t' => slept_ms t'
  end.

(** [m] spawns at most [procs] processes and sleeps at most [ms]
    milliseconds, whatever the world. *)
Definition within (procs : nat) (ms : Z) {A} (m : Py A) : Prop :=
  forall w, exists t,
    w_trace (snd (m w)) = w_trace w ++ t
    /\ count_spawns t <= procs
    /\ (slept_ms t <= ms)%Z.

(** * Properties *)

(** ** Text and paths *)

Example translate_crlf :
  translate_newlines ("a" +:+ String CR (String LF "b")) = "a" +:+ String LF "b".
Proof. reflexivity. Qed.

Example readlines_mixed :
  readlines ("a" +:+ String CR ("b" +:+ String LF (String CR (String LF "c"))))
  = ["a" +:+ String LF ""; "b" +:+ String LF ""; String LF ""; "c"].
Proof. reflexivity. Qed.

Example parse_templates_default :
  parse_path "Fuzzingtemplates-/" = ["Fuzzingtemplates-"].
Proof. reflexivity. Qed.

Example parse_abs : parse_path "/tmp//out/./x" = ["/"; "tmp"; "out"; "x"].
Proof. reflexivity. Qed.

Example str_urls :
  path_str (path_div (parse_path "output") "urls.txt") = "output/urls.txt".
Proof. reflexivity. Qed.

Example str_urls_cwd : path_str (path_div (parse_path "") "urls.txt") = "urls.txt".
Proof. reflexivity. Qed.

(** [translate_newlines] looks two characters ahead, so its properties
    are proved for a string and for its one-character extensions at once. *)
Lemma string_ind2 (P : string -> Prop) :
  P EmptyString ->
  (forall c, P (String c EmptyString)) ->
  (forall c c' s, P s -> P (String c' s) -> P (String c (String c' s))) ->
  forall s, P s.
Proof.
  intros H0 H1 H2 s.
  assert (P s /\ forall c, P (String c s)) as [Hs _]; [|exact Hs].
  induction s as [|a s [IH1 IH2]]; split; auto.
Qed.

Lemma append_cons c s t : String c s +:+ t = String c (s +:+ t).
Proof. reflexivity. Qed.

Lemma append_nil_l t : "" +:+ t = t.
Proof. reflexivity. Qed.

Lemma append_nil_r s : s +:+ "" = s.
Proof. induction s as [|c s IH]; [reflexivity|]. rewrite append_cons, IH. reflexivity. Qed.

Lemma concat_cons x xs : String.concat "" (x :: xs) = x +:+ String.concat "" xs.
Proof.
  destruct xs as [|y ys].
  - cbn [String.concat]. rewrite append_nil_r. reflexivity.
  - cbn [String.concat]. rewrite append_nil_l. reflexivity.
Qed.

Lemma concat_keepends s : String.concat "" (keepends s) = s.
Proof.
  induction s as [|c s IH]; [reflexivity|].
  cbn [keepends]. destruct (Ascii.eqb c LF).
  - rewrite concat_cons, IH. reflexivity.
  - destruct (keepends s) as [|l ls] eqn:E.
    + cbn [String.concat] in *. congruence.
    + rewrite concat_cons in *. rewrite append_cons. congruence.
Qed.

Lemma translate_newlines_id s :
  has_char CR s = false -> translate_newlines s = s.
Proof.
  induction s as [|c s IH]; simpl; [reflexivity|].
  intros Hc. apply orb_false_iff in Hc as [Hc Hs].
  rewrite Hc. f_equal. auto.
Qed.

Lemma translate_other c s :
  Ascii.eqb c CR = false ->
  translate_newlines (String c s) = String c (translate_newlines s).
Proof. intros E. cbn [translate_newlines]. rewrite E. reflexivity. Qed.

Lemma translate_cr_lf c c' s :
  Ascii.eqb c CR = true -> Ascii.eqb c' LF = true ->
  translate_newlines (String c (String c' s)) = String LF (translate_newlines s).
Proof. intros E E'. cbn [translate_newlines]. rewrite E, E'. reflexivity. Qed.

Lemma translate_cr c c' s :
  Ascii.eqb c CR = true -> Ascii.eqb c' LF = false ->
  translate_newlines (String c (String c' s))
  = String LF (translate_newlines (String c' s)).
Proof. intros E E'. cbn [translate_newlines]. rewrite E, E'. reflexivity. Qed.

Lemma translate_newlines_no_cr s : has_char CR (translate_newlines s) = false.
Proof.
  induction s as [|c|c c' s IH1 IH2] using string_ind2.
  - reflexivity.
  - destruct (Ascii.eqb c CR) eqn:E.
    + cbn [translate_newlines]. rewrite E. reflexivity.
    + rewrite translate_other by exact E. cbn [has_char translate_newlines].
      rewrite E. reflexivity.
  - destruct (Ascii.eqb c CR) eqn:E.
    + destruct (Ascii.eqb c' LF) eqn:E'.
      * rewrite translate_cr_lf by assumption. cbn [has_char]. rewrite IH1. reflexivity.
      * rewrite translate_cr by assumption. cbn [has_char]. rewrite IH2. reflexivity.
    + rewrite translate_other by exact E. cbn [has_char]. rewrite E, IH2. reflexivity.
Qed.

(** Writing the lines back and reading them again gives the same lines. *)
Lemma readlines_writelines content :
  readlines (writelines (readlines content)) = readlines content.
Proof.
  unfold readlines, writelines. rewrite concat_keepends.
  rewrite translate_newlines_id; [reflexivity|apply translate_newlines_no_cr].
Qed.

Lemma writelines_readlines_id content :
  has_char CR content = false -> writelines (readlines content) = content.
Proof.
  intros Hc. unfold readlines, writelines.
  rewrite concat_keepends. apply translate_newlines_id, Hc.
Qed.

Lemma parent_path_div p : parent (path_div p "urls.txt") = p.
Proof.
  unfold path_div. destruct p as [|a [|b p]]; [reflexivity|reflexivity|].
  change (parent ((a :: b :: p) ++ ["urls.txt"]))
    with (removelast ((a :: b :: p) ++ ["urls.txt"])).
  apply removelast_last.
Qed.

Lemma stat_path_div fs p : stat fs (path_div p "urls.txt") = fs !! path_div p "urls.txt".
Proof.
  unfold stat, path_div. destruct p as [|a [|b p]]; reflexivity.
Qed.

Lemma path_div_not_temp p : path_div p "urls.txt" <> ["temp_urls.txt"].
Proof.
  unfold path_div. destruct p as [|a [|b p]]; discriminate.
Qed.

(** ** The retry loop *)

Lemma retry_loop_fuel {A} (r : Retrying) (fn : Py A) fuel n w :
  stop_max_attempt_number r - n <= fuel ->
  retry_loop r fn (S fuel) n w = retry_loop r fn fuel n w.
Proof.
  revert n w. induction fuel as [|fuel IH]; intros n w Hf.
  - cbn [retry_loop]. destruct (fn w) as [[v|e] w']; [reflexivity|].
    unfold should_stop. destruct (Nat.leb_spec (stop_max_attempt_number r) n); [reflexivity|lia].
  - change (retry_loop r fn (S (S fuel)) n w) with
      (match fn w with
       | (Ok v, w') => (Ok v, w')
       | (Raise e, w') =>
           if should_stop r n then (Raise e, w')
           else (time_sleep (wait_fixed r) >> retry_loop r fn (S fuel) (S n)) w'
       end).
    change (retry_loop r fn (S fuel) n w) with
      (match fn w with
       | (Ok v, w') => (Ok v, w')
       | (Raise e, w') =>
           if should_stop r n then (Raise e, w')
           else (time_sleep (wait_fixed r) >> retry_loop r fn fuel (S n)) w'
       end).
    destruct (fn w) as [[v|e] w']; [reflexivity|].
    destruct (should_stop r n); [reflexivity|].
    unfold bind, time_sleep. apply IH. lia.
Qed.

Section Properties.
Context `{Env}.

(** [run_command] is at most three attempts of its body, 5000 ms apart,
    and it raises what the third attempt raised. *)
Lemma run_command_unfold cmd cwd w :
  run_command cmd cwd w =
  match run_command_body cmd cwd w with
  | (Ok v, w1) => (Ok v, w1)
  | (Raise _, w1) =>
      match run_command_body cmd cwd (add_event (EvSleep 5000) w1) with
      | (Ok v, w2) => (Ok v, w2)
      | (Raise _, w2) => run_command_body cmd cwd (add_event (EvSleep 5000) w2)
      end
  end.
Proof.
  unfold run_command, retry_call. cbn [retry_loop run_command_retry stop_max_attempt_number should_stop Nat.leb wait_fixed].
  destruct (run_command_body cmd cwd w) as [[v|e] w1]; [reflexivity|].
  unfold bind at 1. unfold time_sleep at 1.
  destruct (run_command_body cmd cwd (add_event (EvSleep 5000) w1)) as [[v|e2] w2]; [reflexivity|].
  unfold bind at 1. unfold time_sleep at 1.
  destruct (run_command_body cmd cwd (add_event (EvSleep 5000) w2)) as [[v|e3] w3]; reflexivity.
Qed.


(** One attempt, written out, when no working directory is given. *)
Lemma run_command_body_eq cmd w :
  run_command_body cmd None w =
  let p := shell cmd None (w_trace w) (w_fs w) in
  let w1 := add_event (EvSpawn SubprocessRun cmd None)
              (set_fs (fs_after p) (add_log INFO ("Running command: " +:+ cmd) w)) in
  if (returncode p =? 0)%Z then
    match utf8_decode (stdout p) with
    | Some s => (Ok tt, add_log INFO s w1)
    | None => (Raise (UnicodeDecodeError (stdout p)), w1)
    end
  else
    let e := CalledProcessError (returncode p) cmd (stdout p) (stderr p) in
    let w2 := add_log ERROR ("Error occurred while running command: " +:+ exn_str e) w1 in
    match utf8_decode (stderr p) with
    | Some m => (Raise e, add_log ERROR m w2)
    | None => (Raise (UnicodeDecodeError (stderr p)), w2)
    end.
Proof.
  unfold run_command_body, try_except, bind, logging_info, logging_error,
    subprocess_run, bytes_decode, raise, ret.
  cbn [w_trace w_fs add_log set_fs add_event].
  destruct (returncode _ =? 0)%Z.
  - destruct (utf8_decode (stdout _)); reflexivity.
  - destruct (utf8_decode (stderr _)); reflexivity.
Qed.

Lemma run_command_body_trace cmd w :
  w_trace (snd (run_command_body cmd None w))
  = w_trace w ++ [EvSpawn SubprocessRun cmd None].
Proof.
  rewrite run_command_body_eq. cbv zeta.
  destruct (returncode _ =? 0)%Z;
    [destruct (utf8_decode (stdout _))|destruct (utf8_decode (stderr _))]; reflexivity.
Qed.

Lemma run_command_body_fs cmd w :
  w_fs (snd (run_command_body cmd None w))
  = fs_after (shell cmd None (w_trace w) (w_fs w)).
Proof.
  rewrite run_command_body_eq. cbv zeta.
  destruct (returncode _ =? 0)%Z;
    [destruct (utf8_decode (stdout _))|destruct (utf8_decode (stderr _))]; reflexivity.
Qed.

Lemma run_command_body_ok cmd w :
  fst (run_command_body cmd None w) = Ok tt <->
  returncode (shell cmd None (w_trace w) (w_fs w)) = 0%Z /\
  is_Some (utf8_decode (stdout (shell cmd None (w_trace w) (w_fs w)))).
Proof.
  rewrite run_command_body_eq. cbv zeta.
  destruct (Z.eqb_spec (returncode (shell cmd None (w_trace w) (w_fs w))) 0) as [E|E].
  - destruct (utf8_decode (stdout _)) eqn:D; cbn [fst]; split.
    + intros _. split; [exact E|eauto].
    + reflexivity.
    + discriminate.
    + intros [_ [x Hx]]. discriminate.
  - destruct (utf8_decode (stderr _)); cbn [fst]; split; try discriminate; intros [E' _]; contradiction.
Qed.

Lemma subprocess_run_cases cmd cwd w :
  exists r w' a,
    subprocess_run cmd cwd w = (r, w') /\
    w_trace w' = w_trace w ++ a /\
    (a = [] \/ a = [EvSpawn SubprocessRun cmd cwd]) /\
    (cwd = None -> a = [EvSpawn SubprocessRun cmd cwd]) /\
    ((forall t fs, returncode (shell cmd cwd t fs) <> 0%Z) -> exists e, r = Raise e).
Proof.
  assert (Hgo : exists r w',
    (let p := shell cmd cwd (w_trace w) (w_fs w) in
     let w' := add_event (EvSpawn SubprocessRun cmd cwd) (set_fs (fs_after p) w) in
     if (returncode p =? 0)%Z then (Ok p, w')
     else (Raise (CalledProcessError (returncode p) cmd (stdout p) (stderr p)), w'))
    = (r, w') /\
    w_trace w' = w_trace w ++ [EvSpawn SubprocessRun cmd cwd] /\
    ((forall t fs, returncode (shell cmd cwd t fs) <> 0%Z) -> exists e, r = Raise e)).
  { cbv zeta.
    destruct (Z.eqb_spec (returncode (shell cmd cwd (w_trace w) (w_fs w))) 0) as [E|E].
    - eexists _, _. split; [reflexivity|]. split; [reflexivity|].
      intros Hf. destruct (Hf _ _ E).
    - eexists _, _. split; [reflexivity|]. split; [reflexivity|]. eauto. }
  destruct Hgo as (r & w' & Hgo & Ht & Hf).
  unfold subprocess_run. destruct cwd as [d|].
  - destruct (stat (w_fs w) (parse_path d)) as [[c|]|].
    + exists (Raise (NotADirectoryError d)), w, [].
      rewrite app_nil_r. repeat split; eauto. discriminate.
    + exists r, w', [EvSpawn SubprocessRun cmd (Some d)]. repeat split; eauto.
    + exists (Raise (FileNotFoundError d)), w, [].
      rewrite app_nil_r. repeat split; eauto. discriminate.
  - exists r, w', [EvSpawn SubprocessRun cmd None]. repeat split; eauto.
Qed.

(** With or without a working directory, an attempt spawns the command
    at most once, and a command that always exits non-zero makes it
    raise. *)
Lemma run_command_body_cases cmd cwd w :
  exists r w' a,
    run_command_body cmd cwd w = (r, w') /\
    w_trace w' = w_trace w ++ a /\
    (a = [] \/ a = [EvSpawn SubprocessRun cmd cwd]) /\
    (cwd = None -> a = [EvSpawn SubprocessRun cmd cwd]) /\
    ((forall t fs, returncode (shell cmd cwd t fs) <> 0%Z) -> exists e, r = Raise e).
Proof.
  destruct (subprocess_run_cases cmd cwd (add_log INFO ("Running command: " +:+ cmd) w))
    as (r & w' & a & Hrun & Ht & Ha & Hn & Hf).
  unfold run_command_body, try_except, bind, logging_info.
  rewrite Hrun. cbn [w_trace add_log] in Ht.
  destruct r as [p|e].
  - unfold bytes_decode. destruct (utf8_decode (stdout p)) as [s|].
    + exists (Ok tt), (add_log INFO s w'), a. repeat split; auto.
      intros Hall. destruct (Hf Hall) as [e He]. discriminate.
    + exists (Raise (UnicodeDecodeError (stdout p))), w', a. repeat split; eauto.
  - destruct e as [rc c out err| | | | |];
      try (eexists _, w', a; repeat split; eauto; fail).
    unfold logging_error, raise, bytes_decode.
    destruct (utf8_decode err) as [m|]; eexists _, _, a; (split; [reflexivity|]);
      repeat split; eauto.
Qed.


Lemma spawned_app api cmd t1 t2 :
  spawned api cmd (t1 ++ t2) = spawned api cmd t1 + spawned api cmd t2.
Proof. unfold spawned. rewrite List.filter_app, length_app. reflexivity. Qed.

Lemma spawned_attempt cmd cwd a :
  a = [] \/ a = [EvSpawn SubprocessRun cmd cwd] -> spawned SubprocessRun cmd a <= 1.
Proof.
  intros [->| ->]; unfold spawned; cbn [List.filter spawn_matches]; [simpl; lia|].
  rewrite String.eqb_refl. simpl. lia.
Qed.

Lemma spawned_sleep api cmd ms t :
  spawned api cmd (EvSleep ms :: t) = spawned api cmd t.
Proof. unfold spawned. cbn [List.filter spawn_matches]. destruct api; reflexivity. Qed.

(** C2. A command that exits non-zero at every attempt is attempted
    three times: each attempt raises, the second and the third start
    after a sleep of 5000 ms, [run_command] raises what the third attempt
    raised and leaves the world the third attempt left.  The command is
    spawned at most three times, and exactly three times, 5000 ms apart,
    when no working directory is given. *)
Theorem run_command_three_attempts cmd cwd w :
  (forall t fs, returncode (shell cmd cwd t fs) <> 0%Z) ->
  exists e1 w1 e2 w2 e3 w3,
    run_command_body cmd cwd w = (Raise e1, w1) /\
    run_command_body cmd cwd (add_event (EvSleep 5000) w1) = (Raise e2, w2) /\
    run_command_body cmd cwd (add_event (EvSleep 5000) w2) = (Raise e3, w3) /\
    run_command cmd cwd w = (Raise e3, w3) /\
    spawned SubprocessRun cmd (w_trace w3) <= spawned SubprocessRun cmd (w_trace w) + 3 /\
    (cwd = None -> w_trace w3 = w_trace w ++ runner_events cmd None 3).
Proof.
  intros Hfail.
  destruct (run_command_body_cases cmd cwd w)
    as (r1 & w1 & a1 & E1 & T1 & A1 & N1 & F1).
  destruct (F1 Hfail) as [e1 ->].
  destruct (run_command_body_cases cmd cwd (add_event (EvSleep 5000) w1))
    as (r2 & w2 & a2 & E2 & T2 & A2 & N2 & F2).
  destruct (F2 Hfail) as [e2 ->].
  destruct (run_command_body_cases cmd cwd (add_event (EvSleep 5000) w2))
    as (r3 & w3 & a3 & E3 & T3 & A3 & N3 & F3).
  destruct (F3 Hfail) as [e3 ->].
  exists e1, w1, e2, w2, e3, w3.
  repeat (split; [assumption|]).
  split; [rewrite run_command_unfold, E1, E2; exact E3|].
  cbn [w_trace add_event] in T2, T3.
  rewrite T3, T2, T1. split.
  - rewrite !spawned_app.
    change [EvSleep 5000] with ([EvSleep 5000] ++ []).
    pose proof (spawned_attempt cmd cwd a1 A1).
    pose proof (spawned_attempt cmd cwd a2 A2).
    pose proof (spawned_attempt cmd cwd a3 A3).
    assert (spawned SubprocessRun cmd ([EvSleep 5000] ++ []) = 0) as -> by reflexivity.
    lia.
  - intros ->. rewrite (N1 eq_refl), (N2 eq_refl), (N3 eq_refl).
    rewrite <- !app_assoc. reflexivity.
Qed.

(** The trace of one [run_command] without a working directory: one to
    three executions; one when the first attempt succeeds, three when the
    call raises. *)
Lemma run_command_trace cmd w :
  exists n,
    1 <= n <= 3 /\
    w_trace (snd (run_command cmd None w)) = w_trace w ++ runner_events cmd None n /\
    (fst (run_command_body cmd None w) = Ok tt -> n = 1) /\
    (forall e, fst (run_command cmd None w) = Raise e -> n = 3).
Proof.
  rewrite run_command_unfold.
  pose proof (run_command_body_trace cmd w) as T1.
  destruct (run_command_body cmd None w) as [[[]|e1] w1]; cbn [snd fst] in *.
  { exists 1. repeat split; [lia|lia|exact T1|discriminate]. }
  pose proof (run_command_body_trace cmd (add_event (EvSleep 5000) w1)) as T2.
  destruct (run_command_body cmd None (add_event (EvSleep 5000) w1)) as [[[]|e2] w2];
    cbn [snd fst w_trace add_event] in *.
  { exists 2. repeat split; [lia|lia| |discriminate|discriminate].
    rewrite T2, T1, <- !app_assoc. reflexivity. }
  pose proof (run_command_body_trace cmd (add_event (EvSleep 5000) w2)) as T3.
  cbn [w_trace add_event] in T3.
  exists 3. repeat split; [lia|lia| |discriminate].
  rewrite T3, T2, T1, <- !app_assoc. reflexivity.
Qed.

Lemma spawned_runner_events cmd n :
  1 <= n <= 3 -> spawned SubprocessRun cmd (runner_events cmd None n) = n.
Proof.
  intros Hn. assert (n = 1 \/ n = 2 \/ n = 3) as [->|[->| ->]] by lia;
    unfold spawned; cbn [runner_events List.filter spawn_matches];
    rewrite ?String.eqb_refl; reflexivity.
Qed.

Lemma runner_events_no_file cmd n :
  List.forallb (fun e => negb (is_file_event e)) (runner_events cmd None n) = true.
Proof. destruct n as [|[|[|[|n]]]]; reflexivity. Qed.

(** A tool that leaves a path alone at every run leaves it alone through
    a whole [run_command]. *)
Lemma run_command_keeps cmd (k : list string) w :
  (forall t fs, fs_after (shell cmd None t fs) !! k = fs !! k) ->
  w_fs (snd (run_command cmd None w)) !! k = w_fs w !! k.
Proof.
  intros Hk. rewrite run_command_unfold.
  pose proof (run_command_body_fs cmd w) as F1.
  destruct (run_command_body cmd None w) as [[[]|e1] w1]; cbn [snd] in *.
  { rewrite F1. apply Hk. }
  pose proof (run_command_body_fs cmd (add_event (EvSleep 5000) w1)) as F2.
  destruct (run_command_body cmd None (add_event (EvSleep 5000) w1)) as [[[]|e2] w2];
    cbn [snd w_fs w_trace add_event] in *.
  { rewrite F2, Hk, F1. apply Hk. }
  rewrite run_command_body_fs. cbn [w_fs w_trace add_event].
  rewrite Hk, F2, Hk, F1. apply Hk.
Qed.

(** ** The scan runner *)

Lemma run_nuclei_ready url_file template_dir w :
  is_Some (stat (w_fs w) (Path url_file)) ->
  is_Some (stat (w_fs w) (Path template_dir)) ->
  run_nuclei url_file template_dir w
  = run_command (scanner_command url_file template_dir) None
      (add_log INFO ("Running Nuclei with templates from: " +:+ fmt template_dir) w).
Proof.
  intros Hu Ht.
  unfold run_nuclei, bind, logging_info, path_exists, ret.
  cbn [w_fs add_log].
  rewrite (bool_decide_eq_true_2 _ Hu). cbn [negb w_fs add_log].
  rewrite (bool_decide_eq_true_2 _ Ht). reflexivity.
Qed.

(** C3. When the URL file is not there, [run_nuclei] logs the error and
    raises [FileNotFoundError]; it has asked nothing of the operating
    system by then, so no process was spawned and no file was touched. *)
Theorem run_nuclei_missing_url_file url_file template_dir w :
  stat (w_fs w) (Path url_file) = None ->
  run_nuclei url_file template_dir w
  = (Raise (FileNotFoundError ("URL file not found: " +:+ fmt url_file)),
     add_log ERROR ("URL file not found: " +:+ fmt url_file)
       (add_log INFO ("Running Nuclei with templates from: " +:+ fmt template_dir) w))
  /\ w_trace (snd (run_nuclei url_file template_dir w)) = w_trace w
  /\ w_fs (snd (run_nuclei url_file template_dir w)) = w_fs w
  /\ forall cmd, spawned SubprocessRun cmd (w_trace (snd (run_nuclei url_file template_dir w)))
                 = spawned SubprocessRun cmd (w_trace w).
Proof.
  intros Hu.
  assert (E : run_nuclei url_file template_dir w
    = (Raise (FileNotFoundError ("URL file not found: " +:+ fmt url_file)),
       add_log ERROR ("URL file not found: " +:+ fmt url_file)
         (add_log INFO ("Running Nuclei with templates from: " +:+ fmt template_dir) w))).
  { unfold run_nuclei, bind, logging_info, logging_error, path_exists, raise.
    cbn [w_fs add_log]. rewrite Hu.
    rewrite bool_decide_eq_false_2 by (intros [x Hx]; discriminate). reflexivity. }
  rewrite E. repeat split; reflexivity.
Qed.


(** ** The repository fetcher and the dependency installer *)

Lemma spawned_call_runner_events command cmd n :
  spawned SubprocessCall command (runner_events cmd None n) = 0.
Proof. destruct n as [|[|[|[|n]]]]; reflexivity. Qed.

Lemma runner_events_nonempty cmd n : 1 <= n <= 3 -> runner_events cmd None n <> [].
Proof.
  intros Hn. assert (n = 1 \/ n = 2 \/ n = 3) as [->|[->| ->]] by lia; discriminate.
Qed.


(** C8. [check_dependency] spawns the check command once, through
    [subprocess.call].  On status zero it returns at once, and nothing is
    spawned through [subprocess.run]; on any other status it logs and
    calls [run_command] with the install command.  So the events of a
    [run_command] of the install command follow the check exactly when
    the status is not zero. *)
Theorem check_dependency_spec command install_command w :
  let p := shell command None (w_trace w) (w_fs w) in
  let w1 := add_event (EvSpawn SubprocessCall command None) (set_fs (fs_after p) w) in
  let w' := snd (check_dependency command install_command w) in
  spawned SubprocessCall command (w_trace w')
  = spawned SubprocessCall command (w_trace w) + 1
  /\ (returncode p = 0%Z ->
      check_dependency command install_command w = (Ok tt, w1)
      /\ forall cmd, spawned SubprocessRun cmd (w_trace w') = spawned SubprocessRun cmd (w_trace w))
  /\ (returncode p <> 0%Z ->
      check_dependency command install_command w
      = run_command install_command None
          (add_log INFO (command +:+ " not found. Installing...") w1))
  /\ ((exists n, 1 <= n <= 3 /\
         w_trace w' = w_trace w1 ++ runner_events install_command None n)
      <-> returncode p <> 0%Z).
Proof.
  cbv zeta.
  unfold check_dependency, bind, subprocess_call, logging_info, ret.
  set (p := shell command None (w_trace w) (w_fs w)).
  set (w1 := add_event (EvSpawn SubprocessCall command None) (set_fs (fs_after p) w)).
  assert (T1 : w_trace w1 = w_trace w ++ [EvSpawn SubprocessCall command None]) by reflexivity.
  assert (C1 : spawned SubprocessCall command (w_trace w1)
               = spawned SubprocessCall command (w_trace w) + 1).
  { rewrite T1, spawned_app. unfold spawned at 2. cbn [List.filter spawn_matches].
    rewrite String.eqb_refl. reflexivity. }
  destruct (Z.eqb_spec (returncode p) 0) as [E|E]; cbn [negb snd].
  - split; [exact C1|]. split; [|split].
    + intros _. split; [reflexivity|]. intros cmd. rewrite T1, spawned_app.
      unfold spawned at 2. cbn. lia.
    + intros E'. contradiction.
    + split; [|intros E'; contradiction].
      intros (n & Hn & Tr). exfalso.
      apply (runner_events_nonempty install_command n Hn).
      apply (app_inv_head (w_trace w1)). rewrite app_nil_r. symmetry. exact Tr.
  - destruct (run_command_trace install_command
                (add_log INFO (command +:+ " not found. Installing...") w1))
      as (n & Hn & Tr & _).
    cbn [w_trace add_log] in Tr.
    split; [|split; [|split]].
    + rewrite Tr, spawned_app, spawned_call_runner_events. lia.
    + intros E'. contradiction.
    + reflexivity.
    + split; [intros _; exact E|]. intros _. exists n. split; [exact Hn|exact Tr].
Qed.

(** ** The URL collector *)

Lemma stat_urls_txt fs output_dir :
  stat fs (urls_txt output_dir) = fs !! urls_txt output_dir.
Proof. apply stat_path_div. Qed.

Lemma parent_urls_txt output_dir : parent (urls_txt output_dir) = Path output_dir.
Proof. apply parent_path_div. Qed.

Lemma collect_urls_unfold domain output_dir w :
  collect_urls domain output_dir w =
  match run_command (discovery_command domain) None
          (add_log INFO ("Collecting URLs for domain: " +:+ domain) w) with
  | (Raise e, w1) => (Raise e, w1)
  | (Ok _, w1) =>
      (let* urls := (let* file := open_r (PStr temp_file) in file_readlines file) in
       (let* file := open_w (PPath (urls_txt output_dir)) in file_writelines file urls) >>
       os_remove (PStr temp_file) >>
       logging_info ("URLs saved to " +:+ path_str (urls_txt output_dir))) w1
  end.
Proof.
  unfold collect_urls. unfold bind at 1. unfold logging_info at 1.
  unfold bind at 1.
  destruct (run_command _ _ _) as [[[]|e] w1]; reflexivity.
Qed.

Lemma collect_urls_tail output_dir w1 c :
  w_fs w1 !! temp_path = Some (File c) ->
  locale_ok c = true ->
  stat (w_fs w1) (Path output_dir) = Some Dir ->
  w_fs w1 !! urls_txt output_dir <> Some Dir ->
  (let* urls := (let* file := open_r (PStr temp_file) in file_readlines file) in
   (let* file := open_w (PPath (urls_txt output_dir)) in file_writelines file urls) >>
   os_remove (PStr temp_file) >>
   logging_info ("URLs saved to " +:+ path_str (urls_txt output_dir))) w1
  = (Ok tt, collected output_dir c w1).
Proof.
  intros Htmp Hloc Hdir Htxt.
  assert (Hne : urls_txt output_dir <> temp_path) by apply path_div_not_temp.
  unfold bind at 1. unfold bind at 1. unfold open_r.
  change (Path (PStr temp_file)) with temp_path.
  change (stat (w_fs w1) temp_path) with (w_fs w1 !! temp_path).
  rewrite Htmp. unfold file_readlines. cbn [w_fs add_event]. rewrite Htmp, Hloc.
  unfold bind at 1. unfold bind at 1. unfold bind at 1. unfold open_w.
  cbn [Path w_fs add_event].
  rewrite stat_urls_txt, parent_urls_txt, Hdir.
  assert (Hfin : forall nd, w_fs w1 !! urls_txt output_dir = nd -> nd <> Some Dir ->
    (let* _ := (let* file := (fun w0 : World =>
                   (Ok (urls_txt output_dir),
                    set_fs (<[urls_txt output_dir := File ""]> (w_fs w0)) w0))
                in file_writelines file (readlines c)) in
     os_remove (PStr temp_file) >>
     logging_info ("URLs saved to " +:+ path_str (urls_txt output_dir)))
      (add_event (EvOpen (urls_txt output_dir) ModeW) (add_event (EvOpen temp_path ModeR) w1))
    = (Ok tt, collected output_dir c w1)).
  { intros nd _ _. unfold bind at 1. unfold bind at 1.
    unfold file_writelines. cbn [w_fs set_fs add_event].
    rewrite lookup_insert_eq. rewrite append_nil_l, insert_insert_eq.
    unfold bind at 1. unfold os_remove.
    change (Path (PStr temp_file)) with temp_path.
    change (stat ?fs temp_path) with (fs !! temp_path).
    cbn [w_fs set_fs add_event]. rewrite lookup_insert_ne by exact Hne. rewrite Htmp.
    unfold logging_info, collected, set_fs, add_event, add_log.
    cbn [w_fs w_log w_trace w_stdout].
    rewrite <- !app_assoc. reflexivity. }
  rewrite <- (Hfin _ eq_refl Htxt).
  destruct (w_fs w1 !! urls_txt output_dir) as [[c0|]|]; [reflexivity|contradiction|reflexivity].
Qed.

Lemma collect_urls_tail_inv output_dir w1 u w2 :
  (let* urls := (let* file := open_r (PStr temp_file) in file_readlines file) in
   (let* file := open_w (PPath (urls_txt output_dir)) in file_writelines file urls) >>
   os_remove (PStr temp_file) >>
   logging_info ("URLs saved to " +:+ path_str (urls_txt output_dir))) w1
  = (Ok u, w2) ->
  exists c,
    w_fs w1 !! temp_path = Some (File c) /\
    locale_ok c = true /\
    stat (w_fs w1) (Path output_dir) = Some Dir /\
    w_fs w1 !! urls_txt output_dir <> Some Dir /\
    w2 = collected output_dir c w1.
Proof.
  intros Htail.
  assert (Htxt : w_fs w1 !! urls_txt output_dir = Some Dir \/
                 w_fs w1 !! urls_txt output_dir <> Some Dir).
  { destruct (w_fs w1 !! urls_txt output_dir) as [[c0|]|]; auto; right; discriminate. }
  destruct (w_fs w1 !! temp_path) as [[c|]|] eqn:Htmp;
    [destruct (locale_ok c) eqn:Hloc;
     [destruct (stat (w_fs w1) (Path output_dir)) as [[c1|]|] eqn:Hdir;
      [|destruct Htxt as [Htxt|Htxt]|]|]| |].
  6,7: exfalso; revert Htail; unfold bind at 1; unfold bind at 1; unfold open_r;
       change (Path (PStr temp_file)) with temp_path;
       change (stat (w_fs w1) temp_path) with (w_fs w1 !! temp_path);
       rewrite Htmp; discriminate.
  5: { exfalso; revert Htail; unfold bind at 1; unfold bind at 1; unfold open_r;
       change (Path (PStr temp_file)) with temp_path;
       change (stat (w_fs w1) temp_path) with (w_fs w1 !! temp_path);
       rewrite Htmp; unfold file_readlines; cbn [w_fs add_event]; rewrite Htmp, Hloc.
       discriminate. }
  3: { rewrite (collect_urls_tail output_dir w1 c Htmp Hloc Hdir Htxt) in Htail.
       injection Htail as _ <-. exists c. auto. }
  all: exfalso; revert Htail; unfold bind at 1; unfold bind at 1; unfold open_r;
       change (Path (PStr temp_file)) with temp_path;
       change (stat (w_fs w1) temp_path) with (w_fs w1 !! temp_path);
       rewrite Htmp; unfold file_readlines; cbn [w_fs add_event]; rewrite Htmp, Hloc;
       unfold bind at 1; unfold bind at 1; unfold bind at 1; unfold open_w;
       cbn [Path w_fs add_event];
       rewrite stat_urls_txt, parent_urls_txt, Hdir;
       try rewrite Htxt; try discriminate;
       destruct (w_fs w1 !! urls_txt output_dir) as [[c0|]|]; discriminate.
Qed.

(** C1, as the script has it.  When the discovery command succeeds and
    leaves a text file [temp_urls.txt], and the output directory is
    there, [collect_urls] returns normally and [urls.txt] in the output
    directory holds the lines read from that file, written back to back:
    read again, they are the same lines in the same order, as many as
    before.  A carriage return at the end of a line is read as a line
    feed; a file without carriage returns is copied byte for byte. *)
Theorem collect_urls_copies_lines domain output_dir w w1 c :
  run_command (discovery_command domain) None
    (add_log INFO ("Collecting URLs for domain: " +:+ domain) w) = (Ok tt, w1) ->
  w_fs w1 !! temp_path = Some (File c) ->
  locale_ok c = true ->
  stat (w_fs w1) (Path output_dir) = Some Dir ->
  w_fs w1 !! urls_txt output_dir <> Some Dir ->
  exists w2 c',
    collect_urls domain output_dir w = (Ok tt, w2) /\
    w_fs w2 !! urls_txt output_dir = Some (File c') /\
    c' = writelines (readlines c) /\
    readlines c' = readlines c /\
    length (readlines c') = length (readlines c) /\
    (has_char CR c = false -> c' = c).
Proof.
  intros Hrun Htmp Hloc Hdir Htxt.
  exists (collected output_dir c w1), (writelines (readlines c)).
  split; [|split; [|split; [|split; [|split]]]].
  - rewrite collect_urls_unfold, Hrun. apply collect_urls_tail; assumption.
  - unfold collected. cbn [w_fs add_log].
    rewrite lookup_delete_ne by (apply not_eq_sym, path_div_not_temp).
    apply lookup_insert_eq.
  - reflexivity.
  - apply readlines_writelines.
  - rewrite readlines_writelines. reflexivity.
  - apply writelines_readlines_id.
Qed.

(** C9. A normal return of [collect_urls] means: the discovery command
    returned normally and left [temp_urls.txt]; the script then opened it,
    opened [urls.txt] for writing, and removed [temp_urls.txt], in this
    order.  Against the file system the discovery command left, the
    temporary file is gone, [urls.txt] holds the lines, and every other
    path is as it was. *)
Theorem collect_urls_removes_temp domain output_dir w u w2 :
  collect_urls domain output_dir w = (Ok u, w2) ->
  exists w1 c,
    run_command (discovery_command domain) None
      (add_log INFO ("Collecting URLs for domain: " +:+ domain) w) = (Ok tt, w1) /\
    w_fs w1 !! temp_path = Some (File c) /\
    w_fs w2 !! temp_path = None /\
    w_fs w2 !! urls_txt output_dir = Some (File (writelines (readlines c))) /\
    (forall p, p <> temp_path -> p <> urls_txt output_dir -> w_fs w2 !! p = w_fs w1 !! p) /\
    w_trace w2 = w_trace w1 ++ [EvOpen temp_path ModeR;
                                EvOpen (urls_txt output_dir) ModeW;
                                EvRemove temp_path].
Proof.
  rewrite collect_urls_unfold.
  destruct (run_command _ _ _) as [[[]|e] w1] eqn:Hrun; [|discriminate].
  intros Htail. apply collect_urls_tail_inv in Htail as (c & Htmp & _ & _ & _ & ->).
  exists w1, c. unfold collected. cbn [w_fs w_trace add_log].
  split; [reflexivity|]. split; [exact Htmp|]. split; [apply lookup_delete_eq|].
  split; [|split; [|reflexivity]].
  - rewrite lookup_delete_ne by (apply not_eq_sym, path_div_not_temp).
    apply lookup_insert_eq.
  - intros p Hp1 Hp2.
    rewrite lookup_delete_ne by (apply not_eq_sym, Hp1).
    apply lookup_insert_ne, not_eq_sym, Hp2.
Qed.

(** C10. When the discovery command fails after its retries,
    [collect_urls] raises the same exception from the same world: since
    the call, only processes were spawned and waited for, no file was
    opened, removed or created by the script.  If the discovery tool
    itself leaves [urls.txt] alone, [urls.txt] is as it was before the
    call, there or not. *)
Theorem collect_urls_discovery_fails domain output_dir w e w1 :
  run_command (discovery_command domain) None
    (add_log INFO ("Collecting URLs for domain: " +:+ domain) w) = (Raise e, w1) ->
  collect_urls domain output_dir w = (Raise e, w1) /\
  (exists t, w_trace w1 = w_trace w ++ t /\
             List.forallb (fun ev => negb (is_file_event ev)) t = true) /\
  ((forall t fs, fs_after (shell (discovery_command domain) None t fs) !! urls_txt output_dir
                 = fs !! urls_txt output_dir) ->
   w_fs w1 !! urls_txt output_dir = w_fs w !! urls_txt output_dir).
Proof.
  intros Hrun. split; [|split].
  - rewrite collect_urls_unfold, Hrun. reflexivity.
  - destruct (run_command_trace (discovery_command domain)
                (add_log INFO ("Collecting URLs for domain: " +:+ domain) w))
      as (n & _ & Tr & _).
    rewrite Hrun in Tr. cbn [snd w_trace add_log] in Tr.
    exists (runner_events (discovery_command domain) None n).
    split; [exact Tr|apply runner_events_no_file].
  - intros Hk.
    pose proof (run_command_keeps (discovery_command domain) (urls_txt output_dir)
                  (add_log INFO ("Collecting URLs for domain: " +:+ domain) w) Hk) as K.
    rewrite Hrun in K. exact K.
Qed.

(** ** The thread pool *)

Lemma list_sum_cons x l : list_sum (x :: l) = x + list_sum l.
Proof. reflexivity. Qed.

Lemma future_rank_insert futs i (f g : future) :
  futs !! i = Some f ->
  list_sum (map future_rank (<[i := g]> futs)) + future_rank f
  = list_sum (map future_rank futs) + future_rank g.
Proof.
  revert i. induction futs as [|x futs IH]; intros [|i] Hl; try discriminate.
  - injection Hl as ->. simpl insert. rewrite !map_cons, !list_sum_cons. lia.
  - simpl insert. simpl in Hl. rewrite !map_cons, !list_sum_cons.
    specialize (IH i Hl). lia.
Qed.

(** Every step of the pool uses up rank, whatever the block: no run
    from [s] is longer than [pool_rank s]. *)
Lemma step_rank mw s s' : step mw s s' -> pool_rank s' < pool_rank s.
Proof.
  intros Hstep. destruct Hstep; unfold pool_rank; cbn [pool_main pool_futures main_rank];
    rewrite ?map_cons, ?list_sum_cons; cbn [instr_rank].
  - rewrite map_app, list_sum_app. cbn [map list_sum future_rank fut_state fold_right].
    lia.
  - lia.
  - lia.
  - cbn [map]. lia.
  - lia.
  - pose proof (future_rank_insert futs i _ (mkFuture fn Running) H0) as E.
    cbn [future_rank fut_state] in E. lia.
  - pose proof (future_rank_insert futs i _ (mkFuture fn (Finished (fst (fn w)))) H0) as E.
    cbn [future_rank fut_state] in E. lia.
Qed.

Lemma steps_rank mw k s s' : steps mw k s s' -> k + pool_rank s' <= pool_rank s.
Proof.
  induction 1 as [|k s1 s2 s3 _ IH Hstep]; [lia|].
  apply step_rank in Hstep. lia.
Qed.

Section TwoTasks.
Variables (first second : Py unit) (w : World) (mw : nat).

Ltac bs_close :=
  first
    [ apply bs_start
    | apply (bs_first_queued _ _ _ true)
    | apply (bs_first_queued _ _ _ false)
    | apply bs_first_finished
    | eapply (bs_first_raised _ _ _ _ true); eassumption
    | eapply (bs_first_raised _ _ _ _ false); eassumption
    | eapply bs_second_next; eassumption
    | eapply (bs_second_queued _ _ _ _ true); eassumption
    | eapply (bs_second_queued _ _ _ _ false); eassumption
    | eapply bs_second_finished; eassumption
    | eapply (bs_second_raised _ _ _ _ _ true); eassumption
    | eapply (bs_second_raised _ _ _ _ _ false); eassumption
    | eapply bs_second_returned; [eassumption|eassumption|tauto] ].

Lemma block_state_step s s' :
  block_state first second w s -> step mw s s' -> block_state first second w s'.
Proof.
  intros Hs Hstep.
  destruct Hs; inversion Hstep; subst; clear Hstep.
  all: repeat match goal with
       | Hl : _ !! ?i = Some _ |- _ =>
           is_var i; destruct i as [|[|[|?]]]; cbn in Hl; try discriminate Hl
       end.
  all: cbn in *.
  all: repeat match goal with b : bool |- _ => destruct b end.
  all: repeat match goal with
       | Hor : _ \/ _ |- _ => destruct Hor
       end.
  all: simplify_eq.
  all: repeat match goal with
       | Heq : _ = fst _ |- _ => symmetry in Heq
       | Heq : fst _ = _ |- _ => rewrite ?Heq; revert Heq
       end; intros.
  all: bs_close.
Qed.

Lemma block_state_steps k s :
  steps mw k (pool_init [Submit first; AwaitResult 0; Submit second; AwaitResult 1] w) s ->
  block_state first second w s.
Proof.
  remember (pool_init _ w) as s0 eqn:E0.
  induction 1 as [|k s1 s2 s3 _ IH Hstep]; subst.
  - apply bs_start.
  - eapply block_state_step; [apply IH; reflexivity|exact Hstep].
Qed.

(** Never more than one task that has not finished. *)
Lemma block_state_unfinished s :
  block_state first second w s -> count_unfinished (pool_futures s) <= 1.
Proof.
  intros Hs. destruct Hs; unfold count_unfinished; cbn;
    repeat match goal with b : bool |- _ => destruct b end; cbn; lia.
Qed.

(** The second task is in the pool only after the first has returned. *)
Lemma block_state_order s f :
  block_state first second w s ->
  pool_futures s !! 1 = Some f ->
  exists u, pool_futures s !! 0 = Some (mkFuture first (Finished (Ok u)))
            /\ fst (first w) = Ok u.
Proof.
  intros Hs. destruct Hs; cbn; try discriminate; eauto.
Qed.

Lemma block_state_progress s :
  0 < mw ->
  block_state first second w s ->
  (exists r, pool_main s = Left r) \/ exists s', step mw s s'.
Proof.
  intros Hmw Hs. destruct Hs.
  - right. eexists. apply step_submit.
  - right. destruct running.
    + eexists. eapply (step_finish mw 0). reflexivity.
    + eexists. eapply (step_start mw 0); [reflexivity|exact Hmw].
  - right. destruct (fst (first w)) as [u|e] eqn:E.
    + eexists. eapply (step_result_ok mw 0). reflexivity.
    + eexists. eapply (step_result_raise mw 0). reflexivity.
  - destruct left; [left; eauto|right].
    eexists. apply step_shutdown. reflexivity.
  - right. eexists. apply step_submit.
  - right. destruct running.
    + eexists. eapply (step_finish mw 1). reflexivity.
    + eexists. eapply (step_start mw 1); [reflexivity|exact Hmw].
  - right. destruct (fst (second (snd (first w)))) as [u'|e] eqn:E.
    + eexists. eapply (step_result_ok mw 1). reflexivity.
    + eexists. eapply (step_result_raise mw 1). reflexivity.
  - destruct left; [left; eauto|right].
    eexists. apply step_shutdown. reflexivity.
  - destruct H2 as [->|[->| ->]]; [right|right|left; eauto].
    + eexists. apply step_block_end.
    + eexists. apply step_shutdown. reflexivity.
Qed.

(** A run that has left the block ends as the two calls in a row. *)
Lemma block_state_left s r :
  block_state first second w s ->
  pool_main s = Left r ->
  (r, pool_world s) = (first >> second) w.
Proof.
  intros Hs. unfold bind.
  destruct Hs; cbn [pool_main pool_world]; try discriminate.
  - destruct left; [|discriminate]. intros [= <-].
    destruct (first w) as [r1 w1]. cbn in *. subst. reflexivity.
  - destruct left; [|discriminate]. intros [= <-].
    destruct (first w) as [r1 w1]. cbn in *. subst.
    destruct (second w1) as [r2 w2]. cbn in *. subst. reflexivity.
  - destruct H2 as [->|[->| ->]]; try discriminate. intros [= <-].
    destruct (first w) as [r1 w1]. cbn in *. subst.
    destruct (second w1) as [r2 w2]. cbn in *. subst. destruct u'. reflexivity.
Qed.

(** The schedule that [with_executor] follows gives the same. *)
Lemma run_block_two_tasks :
  with_executor [Submit first; AwaitResult 0; Submit second; AwaitResult 1] w
  = (first >> second) w.
Proof.
  unfold with_executor, bind. cbn [run_block app].
  destruct (first w) as [[[]|e] w1]; cbn; [|reflexivity].
  destruct (second w1) as [[[]|e] w2]; reflexivity.
Qed.

End TwoTasks.

(** C6. Take any run of the pool under the block of [process_target],
    with any positive number of workers, and any state [s] it reaches
    after [k] steps.  At most one task has not finished, so no two tasks
    ever run at once; the scan task is in the pool only when the
    collection task has finished and returned normally; [k] is at most
    10; [s] has left the block or can take a step; and if [s] has left
    the block, its outcome and its world are those of [collect_urls]
    followed by [run_nuclei] on [urls.txt].  The schedule taken for
    [process_target] gives that outcome too. *)
Theorem executor_block_sequential mw domain output_dir templates_dir w k s :
  0 < mw ->
  steps mw k (pool_init (executor_block domain output_dir templates_dir) w) s ->
  count_unfinished (pool_futures s) <= 1
  /\ (forall f, pool_futures s !! 1 = Some f ->
        exists u, pool_futures s !! 0
                  = Some (mkFuture (collect_urls domain output_dir) (Finished (Ok u)))
                  /\ fst (collect_urls domain output_dir w) = Ok u)
  /\ k <= 10
  /\ ((exists r, pool_main s = Left r) \/ exists s', step mw s s')
  /\ (forall r, pool_main s = Left r ->
        (r, pool_world s) = sequential_chain domain output_dir templates_dir w)
  /\ with_executor (executor_block domain output_dir templates_dir) w
     = sequential_chain domain output_dir templates_dir w.
Proof.
  intros Hmw Hrun.
  pose proof (block_state_steps (collect_urls domain output_dir)
                (run_nuclei (PPath (urls_txt output_dir)) templates_dir) w mw k s Hrun) as Hs.
  split; [exact (block_state_unfinished _ _ _ _ Hs)|].
  split; [intros f; exact (block_state_order _ _ _ _ f Hs)|].
  split; [apply steps_rank in Hrun; cbn in Hrun; lia|].
  split; [exact (block_state_progress _ _ _ _ _ Hmw Hs)|].
  split; [intros r; exact (block_state_left _ _ _ _ r Hs)|].
  apply run_block_two_tasks.
Qed.

(** ** The entry point *)

(** C4. Once the command line is accepted, [main] ends in one of two
    ways.  If [process_target] raises, whatever the exception, [main]
    logs "SpiderScan encountered an error: ..." at level ERROR as its
    last record and the process exits with status 1.  If
    [process_target] returns, [main] logs the success and the process
    exits with status 0.  [process_target] is run in the world that
    [setup_logging] and [banner] leave; it is not run at all in the one
    case where [setup_logging] raises, and the exception then leaves
    [main]. *)
Theorem main_exit_status argv args w :
  parse_args argv = inl args ->
  match setup_logging w with
  | (Raise e, ws) => main argv w = (Raise e, ws)
  | (Ok _, ws) =>
      let w0 := add_log INFO "SpiderScan started." (add_stdout banner_art ws) in
      match process_target (ns_domain args) (PStr (ns_output_dir args))
              (PStr (ns_templates args)) w0 with
      | (Raise e, w1) =>
          main argv w
          = (Ok 1%Z, add_log ERROR ("SpiderScan encountered an error: " +:+ exn_str e) w1)
      | (Ok _, w1) =>
          main argv w = (Ok 0%Z, add_log INFO "SpiderScan completed successfully." w1)
      end
  end.
Proof.
  intros Hargs.
  unfold main. rewrite Hargs.
  change ((setup_logging >> ?k) w) with
    (match setup_logging w with (Ok _, ws) => k ws | (Raise e, ws) => (Raise e, ws) end).
  destruct (setup_logging w) as [[[]|e] ws]; [|reflexivity].
  cbv zeta.
  unfold banner, try_except, bind, ret, print, logging_info, logging_error.
  destruct (process_target _ _ _ _) as [[[]|e] w1]; reflexivity.
Qed.

(** ** More on the command runner *)

(** X1. A process that exits with status 0 and prints decodable output
    is run once: [run_command] does not sleep, logs the command and the
    output at level INFO, leaves the file system as the process left it
    and returns. *)
Theorem run_command_first_success cmd w out :
  returncode (shell cmd None (w_trace w) (w_fs w)) = 0%Z ->
  utf8_decode (stdout (shell cmd None (w_trace w) (w_fs w))) = Some out ->
  run_command cmd None w
  = (Ok tt,
     mkWorld (fs_after (shell cmd None (w_trace w) (w_fs w)))
       (w_log w ++ [(INFO, "Running command: " +:+ cmd); (INFO, out)])
       (w_trace w ++ [EvSpawn SubprocessRun cmd None])
       (w_stdout w)).
Proof.
  intros Hrc Hout.
  rewrite run_command_unfold, run_command_body_eq. cbv zeta.
  rewrite Hrc, Hout. cbn [Z.eqb].
  unfold add_log, add_event, set_fs. cbn [w_fs w_log w_trace w_stdout].
  rewrite <- app_assoc. reflexivity.
Qed.

(** X2. A failure that does not last is hidden from the caller: when
    the first process exits non-zero and the second, started 5000 ms
    later on the file system the first one left, exits with status 0 and
    decodable output, [run_command] returns normally.  The command was
    spawned twice, the file system is the one the second process left,
    and the first failure stays in the log at level ERROR. *)
Theorem run_command_second_success cmd w out :
  let p1 := shell cmd None (w_trace w) (w_fs w) in
  let p2 := shell cmd None
              (w_trace w ++ [EvSpawn SubprocessRun cmd None; EvSleep 5000])
              (fs_after p1) in
  returncode p1 <> 0%Z ->
  returncode p2 = 0%Z ->
  utf8_decode (stdout p2) = Some out ->
  fst (run_command cmd None w) = Ok tt
  /\ w_trace (snd (run_command cmd None w)) = w_trace w ++ runner_events cmd None 2
  /\ w_fs (snd (run_command cmd None w)) = fs_after p2
  /\ In (ERROR, "Error occurred while running command: "
                +:+ exn_str (CalledProcessError (returncode p1) cmd (stdout p1) (stderr p1)))
        (w_log (snd (run_command cmd None w))).
Proof.
  cbv zeta. intros Hrc1 Hrc2 Hout.
  rewrite run_command_unfold, run_command_body_eq. cbv zeta.
  apply Z.eqb_neq in Hrc1. rewrite Hrc1.
  destruct (utf8_decode (stderr (shell cmd None (w_trace w) (w_fs w)))) as [m|];
    rewrite run_command_body_eq; cbv zeta;
    cbn [w_trace w_fs add_log add_event set_fs];
    rewrite <- !app_assoc; cbn [app];
    rewrite Hrc2, Hout; cbn [Z.eqb fst snd w_trace w_fs w_log add_log add_event set_fs];
    (split; [reflexivity|]); (split; [rewrite <- !app_assoc; reflexivity|]);
    (split; [reflexivity|]);
    rewrite !in_app_iff; cbn [In]; tauto.
Qed.

(** X3. Success of the process is not enough: the output is decoded
    inside the retried body, so a command that exits with status 0 but
    prints bytes that do not decode is run three times, and
    [run_command] raises [UnicodeDecodeError]. *)
Theorem run_command_undecodable_output cmd w :
  (forall t fs, returncode (shell cmd None t fs) = 0%Z /\
                utf8_decode (stdout (shell cmd None t fs)) = None) ->
  exists data w',
    run_command cmd None w = (Raise (UnicodeDecodeError data), w')
    /\ w_trace w' = w_trace w ++ runner_events cmd None 3
    /\ spawned SubprocessRun cmd (w_trace w') = spawned SubprocessRun cmd (w_trace w) + 3.
Proof.
  intros Hbad.
  assert (Hbody : forall w0,
    run_command_body cmd None w0
    = (Raise (UnicodeDecodeError (stdout (shell cmd None (w_trace w0) (w_fs w0)))),
       add_event (EvSpawn SubprocessRun cmd None)
         (set_fs (fs_after (shell cmd None (w_trace w0) (w_fs w0)))
            (add_log INFO ("Running command: " +:+ cmd) w0)))).
  { intros w0. rewrite run_command_body_eq. cbv zeta.
    destruct (Hbad (w_trace w0) (w_fs w0)) as [-> ->]. reflexivity. }
  rewrite run_command_unfold, !Hbody.
  eexists _, _. split; [reflexivity|].
  cbn [w_trace add_event set_fs add_log].
  rewrite <- !app_assoc. cbn [app].
  split; [reflexivity|].
  change (w_trace w ++ [EvSpawn SubprocessRun cmd None; EvSleep 5000;
                        EvSpawn SubprocessRun cmd None; EvSleep 5000;
                        EvSpawn SubprocessRun cmd None])
    with (w_trace w ++ runner_events cmd None 3).
  rewrite spawned_app, spawned_runner_events by lia. reflexivity.
Qed.

(** X4. Whatever the command, the working directory and the world,
    one call of [run_command] asks the operating system for nothing but
    executions of that command in that directory and sleeps of 5000 ms:
    at most three executions and at most two sleeps, and no file is
    opened, removed or created by the runner itself. *)
Theorem run_command_events cmd cwd w :
  exists t,
    w_trace (snd (run_command cmd cwd w)) = w_trace w ++ t
    /\ Forall (fun e => e = EvSpawn SubprocessRun cmd cwd \/ e = EvSleep 5000) t
    /\ spawned SubprocessRun cmd t <= 3
    /\ length (List.filter is_sleep_5000 t) <= 2
    /\ List.forallb (fun e => negb (is_file_event e)) t = true.
Proof.
  assert (Hatt : forall a, a = [] \/ a = [EvSpawn SubprocessRun cmd cwd] ->
            Forall (fun e => e = EvSpawn SubprocessRun cmd cwd \/ e = EvSleep 5000) a
            /\ spawned SubprocessRun cmd a <= 1
            /\ length (List.filter is_sleep_5000 a) = 0
            /\ List.forallb (fun e => negb (is_file_event e)) a = true).
  { intros a Ha. split; [|split; [exact (spawned_attempt cmd cwd a Ha)|]].
    - destruct Ha as [-> | ->]; repeat constructor.
    - destruct Ha as [-> | ->]; split; reflexivity. }
  rewrite run_command_unfold.
  destruct (run_command_body_cases cmd cwd w) as (r1 & w1 & a1 & E1 & T1 & A1 & _).
  destruct (Hatt a1 A1) as (F1 & S1 & L1 & N1).
  rewrite E1. destruct r1 as [[]|e1].
  { exists a1. cbn [snd]. repeat split; try assumption; lia. }
  destruct (run_command_body_cases cmd cwd (add_event (EvSleep 5000) w1))
    as (r2 & w2 & a2 & E2 & T2 & A2 & _).
  destruct (Hatt a2 A2) as (F2 & S2 & L2 & N2).
  cbn [w_trace add_event] in T2.
  rewrite E2. destruct r2 as [[]|e2].
  { exists (a1 ++ [EvSleep 5000] ++ a2). cbn [snd].
    split; [rewrite T2, T1, <- !app_assoc; reflexivity|].
    split; [apply Forall_app; split; [exact F1|constructor; [right; reflexivity|exact F2]]|].
    rewrite !spawned_app, !List.filter_app, !length_app, !forallb_app.
    change (spawned SubprocessRun cmd [EvSleep 5000]) with 0.
    change (length (List.filter is_sleep_5000 [EvSleep 5000])) with 1.
    rewrite N1, N2. repeat split; try reflexivity; lia. }
  destruct (run_command_body_cases cmd cwd (add_event (EvSleep 5000) w2))
    as (r3 & w3 & a3 & E3 & T3 & A3 & _).
  destruct (Hatt a3 A3) as (F3 & S3 & L3 & N3).
  cbn [w_trace add_event] in T3.
  rewrite E3. cbn [snd].
  exists (a1 ++ [EvSleep 5000] ++ a2 ++ [EvSleep 5000] ++ a3).
  split; [rewrite T3, T2, T1, <- !app_assoc; reflexivity|].
  split.
  { apply Forall_app; split; [exact F1|].
    constructor; [right; reflexivity|].
    apply Forall_app; split; [exact F2|].
    constructor; [right; reflexivity|exact F3]. }
  rewrite !spawned_app, !List.filter_app, !length_app, !forallb_app.
  change (spawned SubprocessRun cmd [EvSleep 5000]) with 0.
  change (length (List.filter is_sleep_5000 [EvSleep 5000])) with 1.
  rewrite N1, N2, N3. repeat split; try reflexivity; lia.
Qed.

(** ** More on the URL collector *)

Ltac tail_open_temp Htmp :=
  unfold bind at 1; unfold bind at 1; unfold open_r;
  change (Path (PStr temp_file)) with temp_path;
  change (stat ?fs temp_path) with (fs !! temp_path);
  rewrite Htmp.

Ltac tail_read Htmp Hloc :=
  tail_open_temp Htmp;
  unfold file_readlines; cbn [w_fs add_event]; rewrite Htmp, Hloc.

Ltac tail_open_urls Htmp Hloc Hdir :=
  tail_read Htmp Hloc;
  unfold bind at 1; unfold bind at 1; unfold bind at 1; unfold open_w;
  cbn [Path w_fs add_event];
  rewrite stat_urls_txt, parent_urls_txt, Hdir.

(** When the rest of [collect_urls] raises, it has opened the temporary
    file, perhaps tried to open [urls.txt], and changed nothing. *)
Lemma collect_urls_tail_raise output_dir w1 e w' :
  (let* urls := (let* file := open_r (PStr temp_file) in file_readlines file) in
   (let* file := open_w (PPath (urls_txt output_dir)) in file_writelines file urls) >>
   os_remove (PStr temp_file) >>
   logging_info ("URLs saved to " +:+ path_str (urls_txt output_dir))) w1
  = (Raise e, w') ->
  w_fs w' = w_fs w1
  /\ w_log w' = w_log w1
  /\ (w_trace w' = w_trace w1 ++ [EvOpen temp_path ModeR]
      \/ w_trace w' = w_trace w1 ++ [EvOpen temp_path ModeR;
                                     EvOpen (urls_txt output_dir) ModeW]).
Proof.
  destruct (w_fs w1 !! temp_path) as [[c|]|] eqn:Htmp.
  - destruct (locale_ok c) eqn:Hloc.
    + destruct (stat (w_fs w1) (Path output_dir)) as [[c1|]|] eqn:Hdir.
      * tail_open_urls Htmp Hloc Hdir.
        destruct (w_fs w1 !! urls_txt output_dir) as [[c0|]|]; intros [= <- <-];
          cbn [w_fs w_log w_trace add_event]; rewrite <- ?app_assoc; auto.
      * destruct (w_fs w1 !! urls_txt output_dir) as [[c0|]|] eqn:Htxt.
        -- rewrite (collect_urls_tail output_dir w1 c Htmp Hloc Hdir); [discriminate|].
           rewrite Htxt. discriminate.
        -- tail_open_urls Htmp Hloc Hdir. rewrite Htxt. intros [= <- <-].
           cbn [w_fs w_log w_trace add_event]; rewrite <- ?app_assoc; auto.
        -- rewrite (collect_urls_tail output_dir w1 c Htmp Hloc Hdir); [discriminate|].
           rewrite Htxt. discriminate.
      * tail_open_urls Htmp Hloc Hdir.
        destruct (w_fs w1 !! urls_txt output_dir) as [[c0|]|]; intros [= <- <-];
          cbn [w_fs w_log w_trace add_event]; rewrite <- ?app_assoc; auto.
    + tail_read Htmp Hloc. intros [= <- <-]. cbn [w_fs w_log w_trace add_event]. auto.
  - tail_open_temp Htmp. intros [= <- <-]. cbn [w_fs w_log w_trace add_event]. auto.
  - tail_open_temp Htmp. intros [= <- <-]. cbn [w_fs w_log w_trace add_event]. auto.
Qed.

(** X5. Once the discovery command has returned normally, leaving the
    world [w1], [collect_urls] returns normally exactly when
    [temp_urls.txt] is a file the locale codec decodes, the output
    directory is a directory, and [urls.txt] in it is not a directory. *)
Theorem collect_urls_succeeds_iff domain output_dir w w1 :
  run_command (discovery_command domain) None
    (add_log INFO ("Collecting URLs for domain: " +:+ domain) w) = (Ok tt, w1) ->
  fst (collect_urls domain output_dir w) = Ok tt
  <-> (exists c, w_fs w1 !! temp_path = Some (File c) /\ locale_ok c = true)
      /\ stat (w_fs w1) (Path output_dir) = Some Dir
      /\ w_fs w1 !! urls_txt output_dir <> Some Dir.
Proof.
  intros Hrun. rewrite collect_urls_unfold, Hrun. split.
  - intros Hok.
    destruct ((let* urls := (let* file := open_r (PStr temp_file) in file_readlines file) in
               (let* file := open_w (PPath (urls_txt output_dir))
                in file_writelines file urls) >>
               os_remove (PStr temp_file) >>
               logging_info ("URLs saved to " +:+ path_str (urls_txt output_dir))) w1)
      as [r w2] eqn:Htail.
    cbn [fst] in Hok. subst r.
    apply collect_urls_tail_inv in Htail as (c & Htmp & Hloc & Hdir & Htxt & _).
    eauto.
  - intros ((c & Htmp & Hloc) & Hdir & Htxt).
    rewrite (collect_urls_tail output_dir w1 c Htmp Hloc Hdir Htxt). reflexivity.
Qed.

(** X6. When [collect_urls] raises, for whatever reason, it has written
    nothing: the file system is the one the discovery command left.  So
    [urls.txt] has been neither created nor emptied, and a temporary file
    the tool wrote is still there. *)
Theorem collect_urls_raise_keeps_files domain output_dir w e w' :
  collect_urls domain output_dir w = (Raise e, w') ->
  w_fs w'
  = w_fs (snd (run_command (discovery_command domain) None
                 (add_log INFO ("Collecting URLs for domain: " +:+ domain) w)))
  /\ forall c,
       w_fs (snd (run_command (discovery_command domain) None
                    (add_log INFO ("Collecting URLs for domain: " +:+ domain) w)))
         !! temp_path = Some (File c) ->
       w_fs w' !! temp_path = Some (File c).
Proof.
  rewrite collect_urls_unfold.
  destruct (run_command _ _ _) as [[[]|e1] w1]; cbn [snd].
  - intros Htail. apply collect_urls_tail_raise in Htail as (Hfs & _).
    rewrite Hfs. auto.
  - intros [= _ <-]. auto.
Qed.

(** The events of [collect_urls], for every outcome. *)
Lemma collect_urls_trace domain output_dir w :
  exists n k,
    1 <= n <= 3 /\ k <= 3 /\
    w_trace (snd (collect_urls domain output_dir w))
    = w_trace w ++ runner_events (discovery_command domain) None n
      ++ firstn k [EvOpen temp_path ModeR; EvOpen (urls_txt output_dir) ModeW;
                   EvRemove temp_path]
    /\ (k = 0 <-> exists e, fst (run_command (discovery_command domain) None
                                  (add_log INFO ("Collecting URLs for domain: " +:+ domain) w))
                            = Raise e)
    /\ (k = 3 <-> fst (collect_urls domain output_dir w) = Ok tt).
Proof.
  rewrite collect_urls_unfold.
  destruct (run_command_trace (discovery_command domain)
              (add_log INFO ("Collecting URLs for domain: " +:+ domain) w))
    as (n & Hn & Tr & _).
  cbn [w_trace add_log] in Tr.
  destruct (run_command _ _ _) as [[[]|e1] w1]; cbn [snd fst] in *.
  - destruct ((let* urls := (let* file := open_r (PStr temp_file) in file_readlines file) in
               (let* file := open_w (PPath (urls_txt output_dir))
                in file_writelines file urls) >>
               os_remove (PStr temp_file) >>
               logging_info ("URLs saved to " +:+ path_str (urls_txt output_dir))) w1)
      as [[[]|e] w2] eqn:Htail; cbn [snd fst].
    + apply collect_urls_tail_inv in Htail as (c & _ & _ & _ & _ & ->).
      exists n, 3. unfold collected. cbn [w_trace add_log firstn].
      rewrite Tr, <- app_assoc.
      repeat split; try lia; try reflexivity; try discriminate.
      intros [e He]. discriminate.
    + apply collect_urls_tail_raise in Htail as (_ & _ & [Ht|Ht]).
      * exists n, 1. cbn [firstn]. rewrite Ht, Tr, <- app_assoc.
        repeat split; try lia; try reflexivity; try discriminate.
        intros [e' He]. discriminate.
      * exists n, 2. cbn [firstn]. rewrite Ht, Tr, <- app_assoc.
        repeat split; try lia; try reflexivity; try discriminate.
        intros [e' He]. discriminate.
  - exists n, 0. cbn [firstn]. rewrite app_nil_r.
    repeat split; try lia; try exact Tr; try discriminate; eauto.
Qed.

(** X7. The file operations of [collect_urls] come in one order, after
    the executions of the discovery command: open [temp_urls.txt] for
    reading, open [urls.txt] for writing, remove [temp_urls.txt].  A call
    gets through a beginning of this list: none of it exactly when the
    discovery command raised, all of it exactly when the call returns
    normally. *)
Theorem collect_urls_events domain output_dir w :
  exists n k,
    1 <= n <= 3 /\ k <= 3 /\
    w_trace (snd (collect_urls domain output_dir w))
    = w_trace w ++ runner_events (discovery_command domain) None n
      ++ firstn k [EvOpen temp_path ModeR; EvOpen (urls_txt output_dir) ModeW;
                   EvRemove temp_path]
    /\ (k = 0 <-> exists e, fst (run_command (discovery_command domain) None
                                  (add_log INFO ("Collecting URLs for domain: " +:+ domain) w))
                            = Raise e)
    /\ (k = 3 <-> fst (collect_urls domain output_dir w) = Ok tt).
Proof. apply collect_urls_trace. Qed.

(** X8. After a normal return, [urls.txt] holds no carriage return, and
    it is in the form the copy produces: reading its lines and writing
    them back gives the same bytes. *)
Theorem collect_urls_output_normal domain output_dir w u w2 :
  collect_urls domain output_dir w = (Ok u, w2) ->
  exists c',
    w_fs w2 !! urls_txt output_dir = Some (File c')
    /\ has_char CR c' = false
    /\ writelines (readlines c') = c'.
Proof.
  rewrite collect_urls_unfold.
  destruct (run_command _ _ _) as [[[]|e] w1]; [|discriminate].
  intros Htail. apply collect_urls_tail_inv in Htail as (c & _ & _ & _ & _ & ->).
  exists (writelines (readlines c)). unfold collected. cbn [w_fs add_log].
  split.
  { rewrite lookup_delete_ne by (apply not_eq_sym, path_div_not_temp).
    apply lookup_insert_eq. }
  assert (Hcr : has_char CR (writelines (readlines c)) = false).
  { unfold writelines, readlines. rewrite concat_keepends. apply translate_newlines_no_cr. }
  split; [exact Hcr|]. apply writelines_readlines_id, Hcr.
Qed.

(** ** More on the scan runner *)

Lemma run_nuclei_no_url url_file template_dir w :
  stat (w_fs w) (Path url_file) = None ->
  run_nuclei url_file template_dir w
  = (Raise (FileNotFoundError ("URL file not found: " +:+ fmt url_file)),
     add_log ERROR ("URL file not found: " +:+ fmt url_file)
       (add_log INFO ("Running Nuclei with templates from: " +:+ fmt template_dir) w)).
Proof.
  intros Hu.
  unfold run_nuclei, bind, logging_info, logging_error, path_exists, raise.
  cbn [w_fs add_log]. rewrite Hu.
  rewrite bool_decide_eq_false_2 by (intros [x Hx]; discriminate). reflexivity.
Qed.

Lemma run_nuclei_no_templates url_file template_dir w :
  is_Some (stat (w_fs w) (Path url_file)) ->
  stat (w_fs w) (Path template_dir) = None ->
  run_nuclei url_file template_dir w
  = (Raise (FileNotFoundError ("Template directory not found: " +:+ fmt template_dir)),
     add_log ERROR ("Template directory not found: " +:+ fmt template_dir)
       (add_log INFO ("Running Nuclei with templates from: " +:+ fmt template_dir) w)).
Proof.
  intros Hu Ht.
  unfold run_nuclei, bind, logging_info, logging_error, path_exists, raise, ret.
  cbn [w_fs add_log].
  rewrite (bool_decide_eq_true_2 _ Hu). cbn [negb w_fs add_log]. rewrite Ht.
  rewrite bool_decide_eq_false_2 by (intros [x Hx]; discriminate). reflexivity.
Qed.

(** The events of [run_nuclei], for every outcome. *)
Lemma run_nuclei_trace url_file template_dir w :
  exists n,
    n <= 3 /\
    w_trace (snd (run_nuclei url_file template_dir w))
    = w_trace w ++ runner_events (scanner_command url_file template_dir) None n
    /\ (n = 0 <-> stat (w_fs w) (Path url_file) = None
                  \/ stat (w_fs w) (Path template_dir) = None)
    /\ (fst (run_nuclei url_file template_dir w) = Ok tt ->
        is_Some (stat (w_fs w) (Path url_file))
        /\ is_Some (stat (w_fs w) (Path template_dir))
        /\ 1 <= n).
Proof.
  destruct (stat (w_fs w) (Path url_file)) as [nu|] eqn:Hu.
  - destruct (stat (w_fs w) (Path template_dir)) as [nt|] eqn:Ht.
    + rewrite run_nuclei_ready by (rewrite ?Hu, ?Ht; eauto).
      destruct (run_command_trace (scanner_command url_file template_dir)
                  (add_log INFO ("Running Nuclei with templates from: "
                                 +:+ fmt template_dir) w))
        as (n & Hn & Tr & _).
      cbn [w_trace add_log] in Tr.
      exists n. split; [lia|]. split; [exact Tr|]. split.
      * split; [lia|]. intros [?|?]; discriminate.
      * intros _. repeat split; eauto; lia.
    + rewrite run_nuclei_no_templates by (rewrite ?Hu; eauto).
      exists 0. cbn [snd fst w_trace add_log runner_events]. rewrite app_nil_r.
      repeat split; auto; try lia; discriminate.
  - rewrite run_nuclei_no_url by exact Hu.
    exists 0. cbn [snd fst w_trace add_log runner_events]. rewrite app_nil_r.
    repeat split; auto; try lia; discriminate.
Qed.

(** X9. All that [run_nuclei] asks of the operating system is to run
    the scanner command, at most three times and 5000 ms apart; it never
    opens, removes or creates a file.  The scanner is not run at all
    exactly when one of the two paths is missing, and a normal return
    means both paths were there and the scanner ran. *)
Theorem run_nuclei_events url_file template_dir w :
  exists n,
    n <= 3 /\
    w_trace (snd (run_nuclei url_file template_dir w))
    = w_trace w ++ runner_events (scanner_command url_file template_dir) None n
    /\ (n = 0 <-> stat (w_fs w) (Path url_file) = None
                  \/ stat (w_fs w) (Path template_dir) = None)
    /\ (fst (run_nuclei url_file template_dir w) = Ok tt ->
        is_Some (stat (w_fs w) (Path url_file))
        /\ is_Some (stat (w_fs w) (Path template_dir))
        /\ 1 <= n).
Proof. apply run_nuclei_trace. Qed.

(** ** Creating the output directory *)

Lemma stat_None_lookup (fs : gmap (list string) node) p :
  stat fs p = None -> fs !! p = None.
Proof.
  unfold stat. destruct p as [|r [|x p]]; try discriminate; auto.
  destruct (is_root r); [discriminate|auto].
Qed.

Lemma stat_insert_same (fs : gmap (list string) node) p :
  stat fs p = None -> stat (<[p := Dir]> fs) p = Some Dir.
Proof.
  unfold stat. destruct p as [|r [|x p]]; try discriminate.
  - destruct (is_root r); [reflexivity|]. intros _. apply lookup_insert_eq.
  - intros _. apply lookup_insert_eq.
Qed.

(** One [os.mkdir]: it is recorded; it either adds the directory where
    there was nothing, below an existing directory, or raises and changes
    nothing; ENOENT means that neither the path nor its parent is there. *)
Lemma os_mkdir_cases p w :
  exists r w',
    os_mkdir p w = (r, w')
    /\ w_trace w' = w_trace w ++ [EvMkdir p]
    /\ w_log w' = w_log w
    /\ w_stdout w' = w_stdout w
    /\ match r with
       | Ok _ => w_fs w' = <[p := Dir]> (w_fs w) /\ stat (w_fs w) p = None
       | Raise e =>
           w_fs w' = w_fs w
           /\ match e with
              | FileNotFoundError _ =>
                  stat (w_fs w) p = None /\ stat (w_fs w) (parent p) = None
              | FileExistsError _ => is_Some (stat (w_fs w) p)
              | _ => True
              end
       end.
Proof.
  unfold os_mkdir.
  destruct (stat (w_fs w) p) as [nd|] eqn:Hp.
  - eexists _, _. split; [reflexivity|]. cbn. repeat split; eauto.
  - destruct (stat (w_fs w) (parent p)) as [[c|]|] eqn:Hpp;
      (eexists _, _; split; [reflexivity|]; cbn; repeat split; eauto).
Qed.

Lemma mkdir_frame_refl w : mkdir_frame w w.
Proof.
  unfold mkdir_frame. repeat split; auto.
  exists []. rewrite app_nil_r. auto.
Qed.

Lemma mkdir_frame_trans w1 w2 w3 :
  mkdir_frame w1 w2 -> mkdir_frame w2 w3 -> mkdir_frame w1 w3.
Proof.
  intros ((t1 & T1 & F1) & L1 & O1 & S1) ((t2 & T2 & F2) & L2 & O2 & S2).
  unfold mkdir_frame. repeat split; try congruence.
  - exists (t1 ++ t2). rewrite T2, T1, <- app_assoc. split; [reflexivity|].
    apply Forall_app; auto.
  - etransitivity; eassumption.
Qed.

Lemma os_mkdir_frame p w : mkdir_frame w (snd (os_mkdir p w)).
Proof.
  destruct (os_mkdir_cases p w) as (r & w' & E & T & L & O & Hr).
  rewrite E. cbn [snd]. unfold mkdir_frame. repeat split; auto.
  - exists [EvMkdir p]. split; [exact T|]. repeat constructor. eauto.
  - destruct r as [u|e].
    + destruct Hr as [-> Hnone]. apply insert_subseteq, stat_None_lookup, Hnone.
    + destruct Hr as [-> _]. reflexivity.
Qed.

(** The handler of [Path.mkdir] for an error other than ENOENT: an
    existing directory is accepted when [exist_ok] is set. *)
Lemma accept_existing_cases e (exist_ok : bool) p w :
  (let* d := path_is_dir (PPath p) in
   if negb exist_ok || negb d then raise e else ret tt) w
  = (if negb exist_ok
        || negb (match stat (w_fs w) p with Some Dir => true | _ => false end)
     then Raise e else Ok tt, w).
Proof.
  unfold bind, path_is_dir. cbn [Path].
  destruct (negb exist_ok || negb _); reflexivity.
Qed.

Lemma path_mkdir_unfold depth p parents exist_ok w :
  path_mkdir depth p parents exist_ok w =
  match os_mkdir p w with
  | (Ok u, w1) => (Ok u, w1)
  | (Raise e, w1) =>
      match e with
      | FileNotFoundError _ =>
          if negb parents || bool_decide (parent p = p) then (Raise e, w1)
          else match depth with
               | O => (Raise e, w1)
               | S d =>
                   match path_mkdir d (parent p) true true w1 with
                   | (Raise e1, w2) => (Raise e1, w2)
                   | (Ok _, w2) =>
                       match os_mkdir p w2 with
                       | (Ok u, w3) => (Ok u, w3)
                       | (Raise e', w3) =>
                           match e' with
                           | FileNotFoundError _ => (Raise e', w3)
                           | _ =>
                               (if negb exist_ok
                                   || negb (match stat (w_fs w3) p with
                                            | Some Dir => true | _ => false end)
                                then Raise e' else Ok tt, w3)
                           end
                       end
                   end
               end
      | _ =>
          (if negb exist_ok
              || negb (match stat (w_fs w1) p with Some Dir => true | _ => false end)
           then Raise e else Ok tt, w1)
      end
  end.
Proof.
  destruct depth; cbn [path_mkdir]; unfold try_except at 1;
    destruct (os_mkdir p w) as [[u|e] w1]; try reflexivity.
  - destruct e; try apply accept_existing_cases.
    destruct (negb parents || bool_decide (parent p = p)); reflexivity.
  - destruct e; try apply accept_existing_cases.
    destruct (negb parents || bool_decide (parent p = p)); [reflexivity|].
    unfold bind at 1.
    destruct (path_mkdir depth (parent p) true true w1) as [[u1|e1] w2]; [|reflexivity].
    unfold try_except.
    destruct (os_mkdir p w2) as [[u|e'] w3]; [reflexivity|].
    destruct e'; try apply accept_existing_cases; reflexivity.
Qed.

Lemma path_mkdir_frame depth p parents exist_ok w :
  mkdir_frame w (snd (path_mkdir depth p parents exist_ok w)).
Proof.
  revert p parents exist_ok w.
  induction depth as [|d IH]; intros p parents exist_ok w;
    rewrite path_mkdir_unfold;
    pose proof (os_mkdir_frame p w) as F1;
    destruct (os_mkdir p w) as [[u|e] w1]; cbn [snd] in *; try exact F1;
    destruct e; try (destruct (negb exist_ok || negb _); exact F1);
    destruct (negb parents || bool_decide (parent p = p)); try exact F1.
  specialize (IH (parent p) true true w1).
  destruct (path_mkdir d (parent p) true true w1) as [[u1|e1] w2]; cbn [snd] in *;
    [|eapply mkdir_frame_trans; eassumption].
  pose proof (os_mkdir_frame p w2) as F3.
  assert (F13 : mkdir_frame w (snd (os_mkdir p w2))).
  { eapply mkdir_frame_trans; [exact F1|]. eapply mkdir_frame_trans; eassumption. }
  destruct (os_mkdir p w2) as [[u|e'] w3]; cbn [snd] in *; try exact F13.
  destruct e'; try (destruct (negb exist_ok || negb _); exact F13); exact F13.
Qed.

Lemma path_mkdir_dir depth p parents exist_ok w u w' :
  path_mkdir depth p parents exist_ok w = (Ok u, w') ->
  stat (w_fs w') p = Some Dir.
Proof.
  assert (Hacc : forall e w1 r,
            (if negb exist_ok
                || negb (match stat (w_fs w1) p with Some Dir => true | _ => false end)
             then Raise e else Ok tt, w1) = (Ok r, w') ->
            stat (w_fs w') p = Some Dir).
  { intros e w1 r. destruct (negb exist_ok); cbn [orb]; [discriminate|].
    destruct (stat (w_fs w1) p) as [[c|]|] eqn:Hs; cbn [negb]; try discriminate.
    intros [= _ <-]. exact Hs. }
  assert (Hmk : forall w0, match os_mkdir p w0 with
                           | (Ok _, w1) => stat (w_fs w1) p = Some Dir
                           | _ => True
                           end).
  { intros w0. destruct (os_mkdir_cases p w0) as (r & w1 & E & _ & _ & _ & Hr).
    rewrite E. destruct r; [|exact I]. destruct Hr as [-> Hn].
    apply stat_insert_same, Hn. }
  rewrite path_mkdir_unfold.
  pose proof (Hmk w) as M1.
  destruct (os_mkdir p w) as [[u1|e] w1].
  { intros [= _ <-]. exact M1. }
  destruct e; try apply Hacc.
  destruct (negb parents || bool_decide (parent p = p)); [discriminate|].
  destruct depth as [|d]; [discriminate|].
  destruct (path_mkdir d (parent p) true true w1) as [[u2|e2] w2]; [|discriminate].
  pose proof (Hmk w2) as M3.
  destruct (os_mkdir p w2) as [[u3|e3] w3].
  { intros [= _ <-]. exact M3. }
  destruct e3; try apply Hacc; discriminate.
Qed.

(** X10. Creating the output directory, as [process_target] does first
    (with parents, accepting an existing directory), only ever adds
    directories: every file and directory that was there is still there
    unchanged, the log is untouched and nothing is spawned.  When the call
    returns normally the output directory is a directory. *)
Theorem output_dir_created output_dir w :
  let p := Path output_dir in
  let r := path_mkdir (length p) p true true w in
  (forall q nd, w_fs w !! q = Some nd -> w_fs (snd r) !! q = Some nd)
  /\ w_log (snd r) = w_log w
  /\ (exists t, w_trace (snd r) = w_trace w ++ t
                /\ Forall (fun e => exists q, e = EvMkdir q) t)
  /\ (fst r = Ok tt -> stat (w_fs (snd r)) p = Some Dir).
Proof.
  cbv zeta.
  destruct (path_mkdir_frame (length (Path output_dir)) (Path output_dir) true true w)
    as (Ht & Hl & _ & Hfs).
  split; [|split; [exact Hl|split; [exact Ht|]]].
  - intros q nd Hq. eapply lookup_weaken; eassumption.
  - destruct (path_mkdir _ _ _ _ w) as [r w'] eqn:E. cbn [fst snd].
    intros ->. eapply path_mkdir_dir. exact E.
Qed.

Lemma parent_shorter (fs : gmap (list string) node) p :
  stat fs p = None -> length (parent p) < length p.
Proof.
  destruct p as [|r [|x p]]; [discriminate| |].
  - unfold stat, parent. destruct (is_root r); [discriminate|]. cbn. lia.
  - intros _. change (parent (r :: x :: p)) with (removelast (r :: x :: p)).
    assert (Hl : forall (l : list string), l <> [] -> length (removelast l) < length l).
    { induction l as [|a [|b l] IH]; intros Hne; [contradiction|cbn; lia|].
      change (removelast (a :: b :: l)) with (a :: removelast (b :: l)).
      cbn [length]. specialize (IH ltac:(discriminate)). cbn [length] in IH. lia. }
    apply Hl. discriminate.
Qed.

(** The climb of [path_mkdir] never needs more depth than the path is
    long: a larger bound changes nothing. *)
Lemma path_mkdir_depth depth p parents exist_ok w :
  length p <= depth ->
  path_mkdir (S depth) p parents exist_ok w = path_mkdir depth p parents exist_ok w.
Proof.
  revert p parents exist_ok w.
  induction depth as [|d IH]; intros p parents exist_ok w Hlen;
    rewrite (path_mkdir_unfold (S _)), (path_mkdir_unfold _ p);
    destruct (os_mkdir_cases p w) as (r & w1 & E & _ & _ & _ & Hr);
    rewrite E; destruct r as [u|e]; try reflexivity;
    destruct e; try reflexivity;
    destruct (negb parents || bool_decide (parent p = p)); try reflexivity;
    destruct Hr as (_ & Hp & _); pose proof (parent_shorter _ _ Hp) as Hsh.
  - lia.
  - rewrite IH by lia. reflexivity.
Qed.

(** ** More on the orchestrator *)

Lemma bind_ok_inv {A B} (m : Py A) (k : A -> Py B) w b w' :
  bind m k w = (Ok b, w') -> exists a w1, m w = (Ok a, w1) /\ k a w1 = (Ok b, w').
Proof.
  unfold bind. destruct (m w) as [[a|e] w1]; [eauto|discriminate].
Qed.

Lemma never_spawns_bind api cmd {A B} (m : Py A) (k : A -> Py B) :
  never_spawns api cmd m -> (forall a, never_spawns api cmd (k a)) ->
  never_spawns api cmd (bind m k).
Proof.
  intros Hm Hk w. destruct (Hm w) as (t & Tm & Sm).
  unfold bind. destruct (m w) as [[a|e] w1]; cbn [snd] in *.
  - destruct (Hk a w1) as (t' & Tk & Sk).
    exists (t ++ t'). rewrite Tk, Tm, <- app_assoc, spawned_app. split; [reflexivity|lia].
  - exists t. auto.
Qed.

Lemma runs_only_after_bind cmd ev {A B} (m : Py A) (k : A -> Py B) :
  never_spawns SubprocessRun cmd m -> (forall a, runs_only_after cmd ev (k a)) ->
  runs_only_after cmd ev (bind m k).
Proof.
  intros Hm Hk w. destruct (Hm w) as (t & Tm & Sm).
  unfold bind. destruct (m w) as [[a|e] w1]; cbn [snd] in *.
  - destruct (Hk a w1) as (t1 & n & Hn & Tk & Sk & Hl).
    exists (t ++ t1), n. split; [exact Hn|].
    split; [rewrite Tk, Tm, <- !app_assoc; reflexivity|].
    split; [rewrite spawned_app; lia|].
    intros H1. rewrite last_app, (Hl H1). reflexivity.
  - exists t, 0. cbn [runner_events]. rewrite app_nil_r.
    repeat split; auto; lia.
Qed.

Lemma spawned_runner_events_other api cmd c n :
  String.eqb cmd c = false -> spawned api c (runner_events cmd None n) = 0.
Proof.
  intros Hne. unfold spawned.
  destruct api; destruct n as [|[|[|[|n]]]]; cbn [runner_events List.filter spawn_matches];
    rewrite ?Hne; reflexivity.
Qed.

Lemma spawned_mkdirs api c t :
  Forall (fun e => exists q, e = EvMkdir q) t -> spawned api c t = 0.
Proof.
  unfold spawned. induction 1 as [|e t [q ->] _ IH]; [reflexivity|].
  cbn [List.filter spawn_matches]. exact IH.
Qed.

Lemma run_command_never_spawns api cmd c :
  String.eqb cmd c = false -> never_spawns api c (run_command cmd None).
Proof.
  intros Hne w. destruct (run_command_trace cmd w) as (n & _ & Tr & _).
  eexists. split; [exact Tr|]. apply spawned_runner_events_other, Hne.
Qed.

Lemma logging_info_never_spawns api c msg : never_spawns api c (logging_info msg).
Proof. intros w. exists []. cbn. rewrite app_nil_r. auto. Qed.

Lemma path_mkdir_never_spawns api c depth p parents exist_ok :
  never_spawns api c (path_mkdir depth p parents exist_ok).
Proof.
  intros w. destruct (path_mkdir_frame depth p parents exist_ok w) as ((t & Tr & Ft) & _).
  exists t. split; [exact Tr|]. apply spawned_mkdirs, Ft.
Qed.

Lemma clone_repo_never_spawns api c repo_url clone_dir :
  String.eqb ("git clone " +:+ repo_url +:+ " " +:+ fmt clone_dir) c = false ->
  never_spawns api c (clone_repo repo_url clone_dir).
Proof.
  intros Hne w. unfold clone_repo, bind, path_exists.
  destruct (negb (bool_decide (is_Some (stat (w_fs w) (Path clone_dir))))).
  - apply run_command_never_spawns, Hne.
  - apply logging_info_never_spawns.
Qed.

Lemma check_dependency_never_runs c command install_command :
  String.eqb install_command c = false ->
  never_spawns SubprocessRun c (check_dependency command install_command).
Proof.
  intros Hne w. unfold check_dependency, bind, subprocess_call.
  destruct (negb (returncode (shell command None (w_trace w) (w_fs w)) =? 0)%Z).
  - unfold logging_info.
    destruct (run_command_never_spawns SubprocessRun install_command c Hne
                (add_log INFO (command +:+ " not found. Installing...")
                   (add_event (EvSpawn SubprocessCall command None)
                      (set_fs (fs_after (shell command None (w_trace w) (w_fs w))) w))))
      as (t & Tr & St).
    cbn [w_trace add_log add_event set_fs] in Tr.
    exists ([EvSpawn SubprocessCall command None] ++ t).
    rewrite Tr, <- app_assoc, spawned_app. split; [reflexivity|]. rewrite St. reflexivity.
  - exists [EvSpawn SubprocessCall command None]. split; reflexivity.
Qed.

Lemma collect_urls_never_runs c domain output_dir :
  String.eqb (discovery_command domain) c = false ->
  never_spawns SubprocessRun c (collect_urls domain output_dir).
Proof.
  intros Hne w. destruct (collect_urls_trace domain output_dir w) as (n & k & _ & _ & Tr & _).
  eexists. split; [exact Tr|].
  rewrite spawned_app, spawned_runner_events_other by exact Hne.
  destruct k as [|[|[|k]]]; cbn [firstn]; rewrite ?take_nil; reflexivity.
Qed.

(** The commands of the script differ from the scanner command by their
    first letter. *)
Lemma scanner_not_git url_file template_dir repo_url clone_dir :
  String.eqb ("git clone " +:+ repo_url +:+ " " +:+ fmt clone_dir)
    (scanner_command url_file template_dir) = false.
Proof. reflexivity. Qed.

Lemma scanner_not_discovery url_file template_dir domain :
  String.eqb (discovery_command domain) (scanner_command url_file template_dir) = false.
Proof. reflexivity. Qed.

Lemma sequential_chain_scans_after domain output_dir templates_dir :
  runs_only_after (scanner_command (PPath (urls_txt output_dir)) templates_dir)
    (EvRemove temp_path) (sequential_chain domain output_dir templates_dir).
Proof.
  intros w. unfold sequential_chain, bind.
  destruct (collect_urls_trace domain output_dir w) as (n & k & Hn & Hk & Tr & _ & H3).
  destruct (collect_urls domain output_dir w) as [[[]|e] w1]; cbn [snd fst] in *.
  - assert (k = 3) as -> by (apply H3; reflexivity). cbn [firstn] in Tr.
    destruct (run_nuclei_trace (PPath (urls_txt output_dir)) templates_dir w1)
      as (m & Hm & Tn & _).
    exists (runner_events (discovery_command domain) None n
            ++ [EvOpen temp_path ModeR; EvOpen (urls_txt output_dir) ModeW;
                EvRemove temp_path]), m.
    split; [exact Hm|]. split; [rewrite Tn, Tr, <- !app_assoc; reflexivity|].
    split.
    + rewrite spawned_app, spawned_runner_events_other by apply scanner_not_discovery.
      reflexivity.
    + intros _. rewrite last_app. reflexivity.
  - eexists _, 0. cbn [runner_events]. rewrite app_nil_r.
    split; [lia|]. split; [exact Tr|]. split; [|lia].
    rewrite spawned_app, spawned_runner_events_other by apply scanner_not_discovery.
    destruct k as [|[|[|k]]]; cbn [firstn]; rewrite ?take_nil; reflexivity.
Qed.

Lemma executor_block_chain domain output_dir templates_dir w :
  with_executor (executor_block domain output_dir templates_dir) w
  = sequential_chain domain output_dir templates_dir w.
Proof. apply run_block_two_tasks. Qed.

Lemma process_target_scans_after domain output_dir templates_dir :
  runs_only_after (scanner_command (PPath (urls_txt output_dir)) templates_dir)
    (EvRemove temp_path) (process_target domain output_dir templates_dir).
Proof.
  unfold process_target.
  apply runs_only_after_bind; [apply path_mkdir_never_spawns|intros _].
  apply runs_only_after_bind; [apply clone_repo_never_spawns; reflexivity|intros _].
  apply runs_only_after_bind; [apply run_command_never_spawns; reflexivity|intros _].
  apply runs_only_after_bind; [apply clone_repo_never_spawns; reflexivity|intros _].
  apply runs_only_after_bind; [apply check_dependency_never_runs; reflexivity|intros _].
  intros w. rewrite executor_block_chain. apply sequential_chain_scans_after.
Qed.

(** X11. In every run of [process_target] the scanner is spawned only
    at the very end, at most three times and 5000 ms apart, and only
    right after [temp_urls.txt] was removed, which is the last file
    operation of a collection that worked: nothing is scanned before the
    URL list is complete, and a run that stops earlier scans nothing. *)
Theorem process_target_scans_last domain output_dir templates_dir w :
  exists t n,
    n <= 3
    /\ w_trace (snd (process_target domain output_dir templates_dir w))
       = w_trace w ++ t
         ++ runner_events (scanner_command (PPath (urls_txt output_dir)) templates_dir)
              None n
    /\ spawned SubprocessRun (scanner_command (PPath (urls_txt output_dir)) templates_dir) t
       = 0
    /\ (1 <= n -> last t = Some (EvRemove temp_path)).
Proof. apply process_target_scans_after. Qed.

(** X12. When the output path is taken by a regular file,
    [process_target] stops at its first step: it raises
    [FileExistsError] after the one [os.mkdir] it tried, with the file
    system and the log as they were and nothing spawned. *)
Theorem process_target_output_is_file domain output_dir templates_dir w c :
  stat (w_fs w) (Path output_dir) = Some (File c) ->
  process_target domain output_dir templates_dir w
  = (Raise (FileExistsError (path_str (Path output_dir))),
     add_event (EvMkdir (Path output_dir)) w).
Proof.
  intros Hs. unfold process_target. unfold bind at 1.
  rewrite path_mkdir_unfold. unfold os_mkdir. rewrite Hs.
  cbn [w_fs add_event]. rewrite Hs. reflexivity.
Qed.

Lemma never_spawns_grows api c {A} (m : Py A) w :
  never_spawns api c m -> exists t, w_trace (snd (m w)) = w_trace w ++ t.
Proof. intros Hm. destruct (Hm w) as (t & Tr & _). eauto. Qed.

Lemma spawned_grows api c (t0 t1 t : list event) :
  t1 = t0 ++ t -> spawned api c t0 + spawned api c t = spawned api c t1.
Proof. intros ->. rewrite spawned_app. reflexivity. Qed.

Lemma check_dependency_calls command install_command w :
  exists t,
    w_trace (snd (check_dependency command install_command w))
    = w_trace w ++ [EvSpawn SubprocessCall command None] ++ t.
Proof.
  unfold check_dependency, bind, subprocess_call.
  destruct (negb (returncode (shell command None (w_trace w) (w_fs w)) =? 0)%Z).
  - unfold logging_info.
    destruct (run_command_trace install_command
                (add_log INFO (command +:+ " not found. Installing...")
                   (add_event (EvSpawn SubprocessCall command None)
                      (set_fs (fs_after (shell command None (w_trace w) (w_fs w))) w))))
      as (n & _ & Tr & _).
    cbn [w_trace add_log add_event set_fs] in Tr.
    eexists. rewrite Tr, <- app_assoc. reflexivity.
  - exists []. reflexivity.
Qed.

(** What a normal return of [process_target] says about the trace. *)
Lemma process_target_ok_counts domain output_dir templates_dir w u w' :
  process_target domain output_dir templates_dir w = (Ok u, w') ->
  spawned SubprocessRun "pip install -r ParamSpider/requirements.txt" (w_trace w) + 1
  <= spawned SubprocessRun "pip install -r ParamSpider/requirements.txt" (w_trace w')
  /\ spawned SubprocessCall "nuclei -version" (w_trace w) + 1
     <= spawned SubprocessCall "nuclei -version" (w_trace w')
  /\ spawned SubprocessRun (discovery_command domain) (w_trace w) + 1
     <= spawned SubprocessRun (discovery_command domain) (w_trace w')
  /\ spawned SubprocessRun (scanner_command (PPath (urls_txt output_dir)) templates_dir)
       (w_trace w) + 1
     <= spawned SubprocessRun (scanner_command (PPath (urls_txt output_dir)) templates_dir)
          (w_trace w').
Proof.
  unfold process_target. intros Hrun.
  apply bind_ok_inv in Hrun as (u1 & w1 & E1 & Hrun).
  apply bind_ok_inv in Hrun as (u2 & w2 & E2 & Hrun).
  apply bind_ok_inv in Hrun as (u3 & w3 & E3 & Hrun).
  apply bind_ok_inv in Hrun as (u4 & w4 & E4 & Hrun).
  apply bind_ok_inv in Hrun as (u5 & w5 & E5 & Hrun).
  rewrite executor_block_chain in Hrun. unfold sequential_chain in Hrun.
  apply bind_ok_inv in Hrun as (u6 & w6 & E6 & E7).
  (* the trace after each step *)
  destruct (path_mkdir_frame (length (Path output_dir)) (Path output_dir) true true w)
    as ((t1 & T1 & _) & _).
  rewrite E1 in T1. cbn [snd] in T1.
  destruct (never_spawns_grows SubprocessRun ""
              (clone_repo "https://github.com/0xKayala/ParamSpider.git" (PStr "ParamSpider"))
              w1 (clone_repo_never_spawns SubprocessRun ""
                    "https://github.com/0xKayala/ParamSpider.git" (PStr "ParamSpider")
                    eq_refl)) as (t2 & T2).
  rewrite E2 in T2. cbn [snd] in T2.
  destruct (run_command_trace "pip install -r ParamSpider/requirements.txt" w2)
    as (n3 & Hn3 & T3 & _).
  rewrite E3 in T3. cbn [snd] in T3.
  destruct (never_spawns_grows SubprocessRun ""
              (clone_repo "https://github.com/MuhammadWaseem29/Fuzzingtemplates-.git"
                 templates_dir)
              w3 (clone_repo_never_spawns SubprocessRun ""
                    "https://github.com/MuhammadWaseem29/Fuzzingtemplates-.git"
                    templates_dir eq_refl)) as (t4 & T4).
  rewrite E4 in T4. cbn [snd] in T4.
  destruct (check_dependency_calls "nuclei -version"
              "go install -v github.com/projectdiscovery/nuclei/v2/cmd/nuclei@latest" w4)
    as (t5 & T5).
  rewrite E5 in T5. cbn [snd] in T5.
  destruct (collect_urls_trace domain output_dir w5) as (n6 & k6 & Hn6 & _ & T6 & _).
  rewrite E6 in T6. cbn [snd] in T6.
  destruct (run_nuclei_trace (PPath (urls_txt output_dir)) templates_dir w6)
    as (n7 & Hn7 & T7 & _ & Hok7).
  rewrite E7 in T7, Hok7. cbn [snd fst] in T7, Hok7.
  assert (1 <= n7) by (destruct u; apply Hok7; reflexivity).
  assert (Hcount : forall api c,
    spawned api c (w_trace w')
    = spawned api c (w_trace w) + spawned api c t1 + spawned api c t2
      + spawned api c (runner_events "pip install -r ParamSpider/requirements.txt" None n3)
      + spawned api c t4
      + (spawned api c [EvSpawn SubprocessCall "nuclei -version" None] + spawned api c t5)
      + (spawned api c (runner_events (discovery_command domain) None n6)
         + spawned api c (firstn k6 [EvOpen temp_path ModeR;
                                     EvOpen (urls_txt output_dir) ModeW;
                                     EvRemove temp_path]))
      + spawned api c (runner_events
                         (scanner_command (PPath (urls_txt output_dir)) templates_dir)
                         None n7)).
  { intros api c. rewrite T7, T6, T5, T4, T3, T2, T1, !spawned_app. lia. }
  repeat split; rewrite Hcount.
  - rewrite (spawned_runner_events "pip install -r ParamSpider/requirements.txt" n3 Hn3). lia.
  - change (spawned SubprocessCall "nuclei -version"
              [EvSpawn SubprocessCall "nuclei -version" None]) with 1. lia.
  - rewrite (spawned_runner_events (discovery_command domain) n6 Hn6). lia.
  - rewrite (spawned_runner_events
               (scanner_command (PPath (urls_txt output_dir)) templates_dir) n7) by lia.
    lia.
Qed.

(** X13. A normal return of [process_target] is never empty-handed:
    within the call [pip install] was run, the check command
    [nuclei -version] was called, the discovery command was run and the
    scanner was run, each at least once. *)
Theorem process_target_return_means_ran domain output_dir templates_dir w u w' :
  process_target domain output_dir templates_dir w = (Ok u, w') ->
  spawned SubprocessRun "pip install -r ParamSpider/requirements.txt" (w_trace w) + 1
  <= spawned SubprocessRun "pip install -r ParamSpider/requirements.txt" (w_trace w')
  /\ spawned SubprocessCall "nuclei -version" (w_trace w) + 1
     <= spawned SubprocessCall "nuclei -version" (w_trace w')
  /\ spawned SubprocessRun (discovery_command domain) (w_trace w) + 1
     <= spawned SubprocessRun (discovery_command domain) (w_trace w')
  /\ spawned SubprocessRun (scanner_command (PPath (urls_txt output_dir)) templates_dir)
       (w_trace w) + 1
     <= spawned SubprocessRun (scanner_command (PPath (urls_txt output_dir)) templates_dir)
          (w_trace w').
Proof. apply process_target_ok_counts. Qed.

(** ** More on the entry point *)

(** What [setup_logging] does, by what is at the place of the log file. *)
Lemma setup_logging_cases w :
  let w1 := add_event (EvOpen ["spiderscan.log"] ModeA) w in
  setup_logging w =
  match w_fs w !! ["spiderscan.log"] with
  | Some Dir => (Raise (IsADirectoryError "spiderscan.log"), w1)
  | Some (File _) => (Ok tt, w1)
  | None => (Ok tt, set_fs (<[ ["spiderscan.log"] := File "" ]> (w_fs w)) w1)
  end.
Proof.
  cbv zeta. unfold setup_logging, FileHandler, bind, open_a, ret.
  change (Path (PStr "spiderscan.log")) with ["spiderscan.log"].
  change (fmt (PStr "spiderscan.log")) with "spiderscan.log".
  change (stat (w_fs w) ["spiderscan.log"]) with (w_fs w !! ["spiderscan.log"]).
  destruct (w_fs w !! ["spiderscan.log"]) as [[c|]|]; reflexivity.
Qed.

Lemma setup_logging_trace w :
  w_trace (snd (setup_logging w)) = w_trace w ++ [EvOpen ["spiderscan.log"] ModeA].
Proof.
  rewrite setup_logging_cases. cbv zeta.
  destruct (w_fs w !! ["spiderscan.log"]) as [[c|]|]; reflexivity.
Qed.

Lemma setup_logging_log w : w_log (snd (setup_logging w)) = w_log w.
Proof.
  rewrite setup_logging_cases. cbv zeta.
  destruct (w_fs w !! ["spiderscan.log"]) as [[c|]|]; reflexivity.
Qed.

Lemma main_cases argv w :
  main argv w =
  match setup_logging w with
  | (Raise e, ws) => (Raise e, ws)
  | (Ok _, ws) =>
      let w0 := add_log INFO "SpiderScan started." (add_stdout banner_art ws) in
      match parse_args argv with
      | inr code => (Ok code, w0)
      | inl args =>
          match process_target (ns_domain args) (PStr (ns_output_dir args))
                  (PStr (ns_templates args)) w0 with
          | (Raise e, w1) =>
              (Ok 1%Z, add_log ERROR ("SpiderScan encountered an error: " +:+ exn_str e) w1)
          | (Ok _, w1) => (Ok 0%Z, add_log INFO "SpiderScan completed successfully." w1)
          end
      end
  end.
Proof.
  unfold main.
  change ((setup_logging >> ?k) w) with
    (match setup_logging w with (Ok _, ws) => k ws | (Raise e, ws) => (Raise e, ws) end).
  destruct (setup_logging w) as [[[]|e] ws]; [|reflexivity].
  cbv zeta.
  destruct (parse_args argv) as [args|code].
  - unfold banner, try_except, bind, ret, print, logging_info, logging_error.
    destruct (process_target _ _ _ _) as [[[]|e] w1]; reflexivity.
  - reflexivity.
Qed.


(** X15. Exit status 0 after an accepted command line means that the
    work was done: within the call the discovery command and the scanner
    were each run at least once, and the last record in the log is
    "SpiderScan completed successfully.". *)
Theorem main_status_zero argv args w w' :
  parse_args argv = inl args ->
  main argv w = (Ok 0%Z, w') ->
  spawned SubprocessRun (discovery_command (ns_domain args)) (w_trace w) + 1
  <= spawned SubprocessRun (discovery_command (ns_domain args)) (w_trace w')
  /\ spawned SubprocessRun
       (scanner_command (PPath (urls_txt (PStr (ns_output_dir args))))
          (PStr (ns_templates args))) (w_trace w) + 1
     <= spawned SubprocessRun
          (scanner_command (PPath (urls_txt (PStr (ns_output_dir args))))
             (PStr (ns_templates args))) (w_trace w')
  /\ last (w_log w') = Some (INFO, "SpiderScan completed successfully.").
Proof.
  intros Hargs. rewrite main_cases.
  pose proof (setup_logging_trace w) as Ht.
  destruct (setup_logging w) as [[[]|e0] ws]; [|discriminate].
  cbv zeta. rewrite Hargs.
  destruct (process_target _ _ _ _) as [[[]|e] w1] eqn:Hrun; [|discriminate].
  intros [= <-].
  destruct (process_target_ok_counts _ _ _ _ _ _ Hrun) as (_ & _ & Hd & Hs).
  cbn [w_trace w_log add_log add_stdout snd] in *.
  rewrite Ht, spawned_app in Hd, Hs. cbn [spawned] in Hd, Hs.
  repeat split; [lia|lia|apply last_snoc].
Qed.

(** ** What a run can cost *)

Lemma count_spawns_app t1 t2 : count_spawns (t1 ++ t2) = count_spawns t1 + count_spawns t2.
Proof. unfold count_spawns. rewrite List.filter_app, length_app. reflexivity. Qed.

Lemma slept_ms_app t1 t2 : slept_ms (t1 ++ t2) = (slept_ms t1 + slept_ms t2)%Z.
Proof.
  induction t1 as [|e t1 IH]; [reflexivity|].
  cbn [app slept_ms]. destruct e; rewrite IH; lia.
Qed.

Lemma within_bind p1 ms1 p2 ms2 {A B} (m : Py A) (k : A -> Py B) :
  (0 <= ms2)%Z ->
  within p1 ms1 m -> (forall a, within p2 ms2 (k a)) ->
  within (p1 + p2) (ms1 + ms2) (bind m k).
Proof.
  intros Hpos Hm Hk w. destruct (Hm w) as (t & Tm & Pm & Sm).
  unfold bind. destruct (m w) as [[a|e] w1]; cbn [snd] in *.
  - destruct (Hk a w1) as (t' & Tk & Pk & Sk).
    exists (t ++ t'). rewrite Tk, Tm, <- app_assoc, count_spawns_app, slept_ms_app.
    split; [reflexivity|]. lia.
  - exists t. split; [exact Tm|]. lia.
Qed.

Lemma within_quiet {A} (m : Py A) :
  (forall w, w_trace (snd (m w)) = w_trace w) -> within 0 0 m.
Proof.
  intros Hm w. exists []. rewrite app_nil_r. split; [apply Hm|]. cbn. lia.
Qed.

Lemma runner_events_cost cmd n :
  n <= 3 ->
  count_spawns (runner_events cmd None n) <= 3
  /\ (slept_ms (runner_events cmd None n) <= 10000)%Z.
Proof.
  intros Hn. assert (n = 0 \/ n = 1 \/ n = 2 \/ n = 3) as [->|[->|[->| ->]]] by lia;
    cbn; lia.
Qed.

Lemma run_command_within cmd : within 3 10000 (run_command cmd None).
Proof.
  intros w. destruct (run_command_trace cmd w) as (n & Hn & Tr & _).
  eexists. split; [exact Tr|]. apply runner_events_cost. lia.
Qed.

Lemma path_mkdir_within depth p parents exist_ok :
  within 0 0 (path_mkdir depth p parents exist_ok).
Proof.
  intros w. destruct (path_mkdir_frame depth p parents exist_ok w) as ((t & Tr & Ft) & _).
  exists t. split; [exact Tr|].
  clear Tr. induction Ft as [|e t [q ->] _ IH]; [split; reflexivity|].
  unfold count_spawns in *. cbn [List.filter slept_ms]. exact IH.
Qed.

Lemma clone_repo_within repo_url clone_dir : within 3 10000 (clone_repo repo_url clone_dir).
Proof.
  intros w. unfold clone_repo, bind, path_exists.
  destruct (negb (bool_decide (is_Some (stat (w_fs w) (Path clone_dir))))).
  - apply run_command_within.
  - exists []. cbn. rewrite app_nil_r. repeat split; lia.
Qed.

Lemma check_dependency_within command install_command :
  within 4 10000 (check_dependency command install_command).
Proof.
  intros w. unfold check_dependency, bind, subprocess_call.
  destruct (negb (returncode (shell command None (w_trace w) (w_fs w)) =? 0)%Z).
  - unfold logging_info.
    destruct (run_command_within install_command
                (add_log INFO (command +:+ " not found. Installing...")
                   (add_event (EvSpawn SubprocessCall command None)
                      (set_fs (fs_after (shell command None (w_trace w) (w_fs w))) w))))
      as (t & Tr & Pt & St).
    cbn [w_trace add_log add_event set_fs] in Tr.
    exists ([EvSpawn SubprocessCall command None] ++ t).
    rewrite Tr, <- app_assoc, count_spawns_app, slept_ms_app.
    split; [reflexivity|]. cbn. lia.
  - exists [EvSpawn SubprocessCall command None]. cbn. repeat split; lia.
Qed.

Lemma collect_urls_within domain output_dir : within 3 10000 (collect_urls domain output_dir).
Proof.
  intros w. destruct (collect_urls_trace domain output_dir w) as (n & k & Hn & _ & Tr & _).
  eexists. split; [exact Tr|].
  rewrite count_spawns_app, slept_ms_app.
  destruct (runner_events_cost (discovery_command domain) n) as [Hp Hs]; [lia|].
  destruct k as [|[|[|k]]]; cbn [firstn]; rewrite ?take_nil; cbn; lia.
Qed.

Lemma run_nuclei_within url_file template_dir :
  within 3 10000 (run_nuclei url_file template_dir).
Proof.
  intros w. destruct (run_nuclei_trace url_file template_dir w) as (n & Hn & Tr & _).
  eexists. split; [exact Tr|]. apply runner_events_cost, Hn.
Qed.

Lemma process_target_within domain output_dir templates_dir :
  within 19 60000 (process_target domain output_dir templates_dir).
Proof.
  unfold process_target.
  apply (within_bind 0 0 19 60000); [lia|apply path_mkdir_within|intros _].
  apply (within_bind 3 10000 16 50000); [lia|apply clone_repo_within|intros _].
  apply (within_bind 3 10000 13 40000); [lia|apply run_command_within|intros _].
  apply (within_bind 3 10000 10 30000); [lia|apply clone_repo_within|intros _].
  apply (within_bind 4 10000 6 20000); [lia|apply check_dependency_within|intros _].
  intros w. rewrite executor_block_chain. revert w.
  unfold sequential_chain.
  apply (within_bind 3 10000 3 10000); [lia|apply collect_urls_within|intros _].
  apply run_nuclei_within.
Qed.

(** X16. A run of [process_target] spawns at most 19 processes and
    spends at most 60 seconds in the delays between attempts, however the
    external tools behave. *)
Theorem process_target_cost domain output_dir templates_dir w :
  exists t,
    w_trace (snd (process_target domain output_dir templates_dir w)) = w_trace w ++ t
    /\ count_spawns t <= 19
    /\ (slept_ms t <= 60000)%Z.
Proof. apply process_target_within. Qed.

(** X17. A working directory that is not there is retried like any
    other failure, although nothing can change between the attempts:
    [run_command] spawns nothing, sleeps twice for 5000 ms, logs the
    command three times and raises [FileNotFoundError], with the file
    system as it was. *)
Theorem run_command_missing_cwd cmd d w :
  stat (w_fs w) (parse_path d) = None ->
  run_command cmd (Some d) w
  = (Raise (FileNotFoundError d),
     mkWorld (w_fs w)
       (w_log w ++ [(INFO, "Running command: " +:+ cmd);
                    (INFO, "Running command: " +:+ cmd);
                    (INFO, "Running command: " +:+ cmd)])
       (w_trace w ++ [EvSleep 5000; EvSleep 5000])
       (w_stdout w)).
Proof.
  intros Hd.
  assert (Hbody : forall w0, w_fs w0 = w_fs w ->
    run_command_body cmd (Some d) w0
    = (Raise (FileNotFoundError d), add_log INFO ("Running command: " +:+ cmd) w0)).
  { intros w0 Hfs.
    unfold run_command_body, try_except, bind, logging_info, subprocess_run.
    cbn [w_fs add_log]. rewrite Hfs, Hd. reflexivity. }
  rewrite run_command_unfold.
  rewrite Hbody by reflexivity.
  rewrite Hbody by reflexivity.
  rewrite Hbody by reflexivity.
  unfold add_log, add_event. cbn [w_fs w_log w_trace w_stdout].
  rewrite <- !app_assoc. reflexivity.
Qed.

End Properties.

(** * Concrete runs *)

(** A command that always fails: three executions, two sleeps, and the
    third failure is raised. *)
Lemma run_command_three_attempts_witness :
  (forall t fs, returncode (@shell Demo.always_failing "false" None t fs) <> 0%Z) /\
  exists e1 w1 e2 w2 e3 w3,
    @run_command_body Demo.always_failing "false" None Demo.empty_world = (Raise e1, w1) /\
    @run_command_body Demo.always_failing "false" None (add_event (EvSleep 5000) w1)
    = (Raise e2, w2) /\
    @run_command_body Demo.always_failing "false" None (add_event (EvSleep 5000) w2)
    = (Raise e3, w3) /\
    @run_command Demo.always_failing "false" None Demo.empty_world = (Raise e3, w3) /\
    spawned SubprocessRun "false" (w_trace w3)
    <= spawned SubprocessRun "false" (w_trace Demo.empty_world) + 3 /\
    (@None string = None -> w_trace w3 = w_trace Demo.empty_world ++ runner_events "false" None 3).
Proof.
  assert (Hfail : forall t fs,
             returncode (@shell Demo.always_failing "false" None t fs) <> 0%Z).
  { intros t fs. cbn. destruct (Demo.spawn_count t); discriminate. }
  split; [exact Hfail|].
  exact (@run_command_three_attempts Demo.always_failing "false" None Demo.empty_world Hfail).
Defined.

Example run_command_always_failing :
  @run_command Demo.always_failing "false" None Demo.empty_world
  = (Raise (CalledProcessError 1 "false" "" ""),
     mkWorld ∅
       [(INFO, "Running command: false");
        (ERROR, "Error occurred while running command: error"); (ERROR, "");
        (INFO, "Running command: false");
        (ERROR, "Error occurred while running command: error"); (ERROR, "");
        (INFO, "Running command: false");
        (ERROR, "Error occurred while running command: error"); (ERROR, "")]
       (runner_events "false" None 3) []).
Proof. vm_compute. reflexivity. Qed.

Example run_command_second_attempt :
  w_trace (snd (@run_command Demo.scanner_flaky "nuclei" None Demo.empty_world))
  = runner_events "nuclei" None 2
  /\ fst (@run_command Demo.scanner_flaky "nuclei" None Demo.empty_world) = Ok tt.
Proof. vm_compute. split; reflexivity. Qed.

(** The URL file is missing. *)
Lemma run_nuclei_missing_url_file_witness :
  stat (w_fs Demo.output_world) (Path (PStr "output/urls.txt")) = None /\
  (@run_nuclei Demo.always_fine (PStr "output/urls.txt") (PStr "Fuzzingtemplates-/")
     Demo.output_world
   = (Raise (FileNotFoundError ("URL file not found: " +:+ fmt (PStr "output/urls.txt"))),
      add_log ERROR ("URL file not found: " +:+ fmt (PStr "output/urls.txt"))
        (add_log INFO
           ("Running Nuclei with templates from: " +:+ fmt (PStr "Fuzzingtemplates-/"))
           Demo.output_world))
   /\ w_trace (snd (@run_nuclei Demo.always_fine (PStr "output/urls.txt")
                      (PStr "Fuzzingtemplates-/") Demo.output_world))
      = w_trace Demo.output_world
   /\ w_fs (snd (@run_nuclei Demo.always_fine (PStr "output/urls.txt")
                   (PStr "Fuzzingtemplates-/") Demo.output_world))
      = w_fs Demo.output_world
   /\ forall cmd,
        spawned SubprocessRun cmd
          (w_trace (snd (@run_nuclei Demo.always_fine (PStr "output/urls.txt")
                           (PStr "Fuzzingtemplates-/") Demo.output_world)))
        = spawned SubprocessRun cmd (w_trace Demo.output_world)).
Proof.
  assert (Hmiss : stat (w_fs Demo.output_world) (Path (PStr "output/urls.txt")) = None)
    by (vm_compute; reflexivity).
  split; [exact Hmiss|].
  exact (@run_nuclei_missing_url_file Demo.always_fine (PStr "output/urls.txt")
           (PStr "Fuzzingtemplates-/") Demo.output_world Hmiss).
Defined.



(** C1 as the specification states it fails, in four runs in which the
    discovery command succeeds and leaves a file of lines.  Without an
    output directory, with a directory at the place of [urls.txt], and
    with a line that the locale codec does not decode, [collect_urls]
    raises and writes no [urls.txt].  With two lines that end in
    carriage return and line feed, [urls.txt] is written with the two
    lines ending in a line feed: not the bytes of the tool's file. *)
Lemma collect_urls_not_verbatim :
  (* no output directory *)
  (fst (@run_command Demo.discovery_ok (discovery_command "example.com") None
          (add_log INFO "Collecting URLs for domain: example.com" Demo.empty_world))
   = Ok tt
   /\ w_fs (snd (@run_command Demo.discovery_ok (discovery_command "example.com") None
                   (add_log INFO "Collecting URLs for domain: example.com"
                      Demo.empty_world))) !! temp_path = Some (File Demo.two_urls)
   /\ length (readlines Demo.two_urls) = 2
   /\ fst (@collect_urls Demo.discovery_ok "example.com" (PStr "output") Demo.empty_world)
      = Raise (FileNotFoundError "output/urls.txt")
   /\ w_fs (snd (@collect_urls Demo.discovery_ok "example.com" (PStr "output")
                   Demo.empty_world)) !! ["output"; "urls.txt"] = None)
  (* a directory at the place of urls.txt *)
  /\ (fst (@run_command Demo.discovery_ok (discovery_command "example.com") None
             (add_log INFO "Collecting URLs for domain: example.com"
                Demo.urls_is_a_directory)) = Ok tt
      /\ fst (@collect_urls Demo.discovery_ok "example.com" (PStr "output")
                Demo.urls_is_a_directory)
         = Raise (IsADirectoryError "output/urls.txt")
      /\ w_fs (snd (@collect_urls Demo.discovery_ok "example.com" (PStr "output")
                      Demo.urls_is_a_directory)) !! ["output"; "urls.txt"] = Some Dir)
  (* a line that is not text *)
  /\ (fst (@run_command Demo.discovery_not_text (discovery_command "example.com") None
             (add_log INFO "Collecting URLs for domain: example.com" Demo.output_world))
      = Ok tt
      /\ w_fs (snd (@run_command Demo.discovery_not_text (discovery_command "example.com")
                      None
                      (add_log INFO "Collecting URLs for domain: example.com"
                         Demo.output_world))) !! temp_path = Some (File Demo.not_text)
      /\ fst (@collect_urls Demo.discovery_not_text "example.com" (PStr "output")
                Demo.output_world)
         = Raise (UnicodeDecodeError Demo.not_text)
      /\ w_fs (snd (@collect_urls Demo.discovery_not_text "example.com" (PStr "output")
                      Demo.output_world)) !! ["output"; "urls.txt"] = None)
  (* lines that end in carriage return and line feed *)
  /\ (fst (@run_command Demo.discovery_crlf (discovery_command "example.com") None
             (add_log INFO "Collecting URLs for domain: example.com" Demo.output_world))
      = Ok tt
      /\ w_fs (snd (@run_command Demo.discovery_crlf (discovery_command "example.com") None
                      (add_log INFO "Collecting URLs for domain: example.com"
                         Demo.output_world))) !! temp_path = Some (File Demo.two_urls_crlf)
      /\ length (readlines Demo.two_urls_crlf) = 2
      /\ fst (@collect_urls Demo.discovery_crlf "example.com" (PStr "output")
                Demo.output_world) = Ok tt
      /\ w_fs (snd (@collect_urls Demo.discovery_crlf "example.com" (PStr "output")
                      Demo.output_world)) !! ["output"; "urls.txt"]
         = Some (File Demo.two_urls)
      /\ Demo.two_urls <> Demo.two_urls_crlf).
Proof.
  repeat match goal with |- _ /\ _ => split end;
    try (vm_compute; reflexivity).
  vm_compute. discriminate.
Qed.

(** The discovery tool writes two lines; they arrive in [urls.txt]. *)
Lemma collect_urls_copies_lines_witness :
  (@run_command Demo.discovery_ok (discovery_command "example.com") None
     (add_log INFO ("Collecting URLs for domain: " +:+ "example.com") Demo.output_world)
   = (Ok tt, Demo.discovered)
   /\ w_fs Demo.discovered !! temp_path = Some (File Demo.two_urls)
   /\ @locale_ok Demo.discovery_ok Demo.two_urls = true
   /\ stat (w_fs Demo.discovered) (Path (PStr "output")) = Some Dir
   /\ w_fs Demo.discovered !! urls_txt (PStr "output") <> Some Dir)
  /\ exists w2 c',
       @collect_urls Demo.discovery_ok "example.com" (PStr "output") Demo.output_world
       = (Ok tt, w2) /\
       w_fs w2 !! urls_txt (PStr "output") = Some (File c') /\
       c' = writelines (readlines Demo.two_urls) /\
       readlines c' = readlines Demo.two_urls /\
       length (readlines c') = length (readlines Demo.two_urls) /\
       (has_char CR Demo.two_urls = false -> c' = Demo.two_urls).
Proof.
  assert (H1 : @run_command Demo.discovery_ok (discovery_command "example.com") None
                 (add_log INFO ("Collecting URLs for domain: " +:+ "example.com")
                    Demo.output_world)
               = (Ok tt, Demo.discovered))
    by (vm_compute; reflexivity).
  assert (H2 : w_fs Demo.discovered !! temp_path = Some (File Demo.two_urls))
    by (vm_compute; reflexivity).
  assert (H3 : @locale_ok Demo.discovery_ok Demo.two_urls = true) by reflexivity.
  assert (H4 : stat (w_fs Demo.discovered) (Path (PStr "output")) = Some Dir)
    by (vm_compute; reflexivity).
  assert (H5 : w_fs Demo.discovered !! urls_txt (PStr "output") <> Some Dir)
    by (vm_compute; discriminate).
  split; [repeat split; assumption|].
  exact (@collect_urls_copies_lines Demo.discovery_ok "example.com" (PStr "output")
           Demo.output_world Demo.discovered Demo.two_urls H1 H2 H3 H4 H5).
Defined.

Example collect_urls_two_urls :
  w_fs Demo.collected_world !! ["output"; "urls.txt"] = Some (File Demo.two_urls)
  /\ w_fs Demo.collected_world !! ["temp_urls.txt"] = None
  /\ readlines Demo.two_urls
     = ["http://a.example/?q=1" +:+ String LF ""; "http://b.example/?id=2" +:+ String LF ""]
  /\ w_trace Demo.collected_world
     = [EvSpawn SubprocessRun
          "python ParamSpider/paramspider.py -d example.com -o temp_urls.txt" None;
        EvOpen ["temp_urls.txt"] ModeR;
        EvOpen ["output"; "urls.txt"] ModeW;
        EvRemove ["temp_urls.txt"]].
Proof. vm_compute. repeat split; reflexivity. Qed.

(** Lines that end in carriage return and line feed arrive with a line
    feed alone: the same lines to [readlines], other bytes on disk. *)
Example collect_urls_crlf :
  w_fs (snd (@collect_urls (Demo.planned 0 [(0%Z, Demo.tool_writes Demo.two_urls_crlf)])
               "example.com" (PStr "output") Demo.output_world))
    !! ["output"; "urls.txt"] = Some (File Demo.two_urls)
  /\ readlines Demo.two_urls = readlines Demo.two_urls_crlf
  /\ Demo.two_urls <> Demo.two_urls_crlf.
Proof. vm_compute. split; [reflexivity|]. split; [reflexivity|discriminate]. Qed.

(** A normal return, looked at from its end. *)
Lemma collect_urls_removes_temp_witness :
  @collect_urls Demo.discovery_ok "example.com" (PStr "output") Demo.output_world
  = (Ok tt, Demo.collected_world)
  /\ exists w1 c,
       @run_command Demo.discovery_ok (discovery_command "example.com") None
         (add_log INFO ("Collecting URLs for domain: " +:+ "example.com") Demo.output_world)
       = (Ok tt, w1) /\
       w_fs w1 !! temp_path = Some (File c) /\
       w_fs Demo.collected_world !! temp_path = None /\
       w_fs Demo.collected_world !! urls_txt (PStr "output")
       = Some (File (writelines (readlines c))) /\
       (forall p, p <> temp_path -> p <> urls_txt (PStr "output") ->
                  w_fs Demo.collected_world !! p = w_fs w1 !! p) /\
       w_trace Demo.collected_world
       = w_trace w1 ++ [EvOpen temp_path ModeR;
                        EvOpen (urls_txt (PStr "output")) ModeW;
                        EvRemove temp_path].
Proof.
  assert (H1 : @collect_urls Demo.discovery_ok "example.com" (PStr "output") Demo.output_world
               = (Ok tt, Demo.collected_world))
    by (vm_compute; reflexivity).
  split; [exact H1|].
  exact (@collect_urls_removes_temp Demo.discovery_ok "example.com" (PStr "output")
           Demo.output_world tt Demo.collected_world H1).
Defined.

(** The discovery tool fails three times; nothing is opened. *)
Lemma collect_urls_discovery_fails_witness :
  @run_command Demo.always_failing (discovery_command "example.com") None
    (add_log INFO ("Collecting URLs for domain: " +:+ "example.com") Demo.output_world)
  = (Raise (CalledProcessError 1 (discovery_command "example.com") "" ""),
     Demo.discovery_failed)
  /\ (@collect_urls Demo.always_failing "example.com" (PStr "output") Demo.output_world
      = (Raise (CalledProcessError 1 (discovery_command "example.com") "" ""),
         Demo.discovery_failed) /\
      (exists t, w_trace Demo.discovery_failed = w_trace Demo.output_world ++ t /\
                 List.forallb (fun ev => negb (is_file_event ev)) t = true) /\
      ((forall t fs,
          fs_after (@shell Demo.always_failing (discovery_command "example.com") None t fs)
            !! urls_txt (PStr "output")
          = fs !! urls_txt (PStr "output")) ->
       w_fs Demo.discovery_failed !! urls_txt (PStr "output")
       = w_fs Demo.output_world !! urls_txt (PStr "output"))).
Proof.
  assert (H1 : @run_command Demo.always_failing (discovery_command "example.com") None
                 (add_log INFO ("Collecting URLs for domain: " +:+ "example.com")
                    Demo.output_world)
               = (Raise (CalledProcessError 1 (discovery_command "example.com") "" ""),
                  Demo.discovery_failed))
    by (vm_compute; reflexivity).
  split; [exact H1|].
  exact (@collect_urls_discovery_fails Demo.always_failing "example.com" (PStr "output")
           Demo.output_world _ _ H1).
Defined.

Lemma steps_first mw k s1 s2 s3 :
  step mw s1 s2 -> steps mw k s2 s3 -> steps mw (S k) s1 s3.
Proof.
  intros H12 H23. induction H23 as [|k s2 s3 s4 _ IH H34].
  - eapply steps_more; [apply steps_refl|exact H12].
  - eapply steps_more; [apply IH; exact H12|exact H34].
Qed.

(** A whole run of the block with one worker, in ten steps. *)
Lemma demo_run : steps 1 10 (pool_init Demo.demo_block Demo.output_world) Demo.demo_left.
Proof.
  unfold Demo.demo_block, executor_block, pool_init.
  eapply steps_first; [apply step_submit|].
  eapply steps_first; [eapply (step_start 1 0); [reflexivity|cbn; lia]|].
  eapply steps_first; [eapply (step_finish 1 0); reflexivity|].
  assert (E1 : fst (@collect_urls Demo.discovery_ok "example.com" (PStr "output")
                      Demo.output_world) = Ok tt) by (vm_compute; reflexivity).
  cbn [insert list_insert app]. simpl insert. rewrite E1.
  fold Demo.collected_world.
  eapply steps_first; [eapply (step_result_ok 1 0); reflexivity|].
  eapply steps_first; [apply step_submit|].
  eapply steps_first; [eapply (step_start 1 1); [reflexivity|cbn; lia]|].
  eapply steps_first; [eapply (step_finish 1 1); reflexivity|].
  assert (E2 : fst (@run_nuclei Demo.discovery_ok (PPath (urls_txt (PStr "output")))
                      (PStr "output") Demo.collected_world) = Ok tt)
    by (vm_compute; reflexivity).
  simpl insert. rewrite E2. fold Demo.scanned_world.
  eapply steps_first; [eapply (step_result_ok 1 1); reflexivity|].
  eapply steps_first; [apply step_block_end|].
  eapply steps_first; [apply step_shutdown; reflexivity|].
  apply steps_refl.
Qed.

Lemma executor_block_sequential_witness :
  (0 < 1 /\ steps 1 10 (pool_init Demo.demo_block Demo.output_world) Demo.demo_left)
  /\ (count_unfinished (pool_futures Demo.demo_left) <= 1
      /\ (forall f, pool_futures Demo.demo_left !! 1 = Some f ->
            exists u, pool_futures Demo.demo_left !! 0
                      = Some (mkFuture (@collect_urls Demo.discovery_ok "example.com"
                                          (PStr "output")) (Finished (Ok u)))
                      /\ fst (@collect_urls Demo.discovery_ok "example.com" (PStr "output")
                                Demo.output_world) = Ok u)
      /\ 10 <= 10
      /\ ((exists r, pool_main Demo.demo_left = Left r)
          \/ exists s', step 1 Demo.demo_left s')
      /\ (forall r, pool_main Demo.demo_left = Left r ->
            (r, pool_world Demo.demo_left)
            = @sequential_chain Demo.discovery_ok "example.com" (PStr "output")
                (PStr "output") Demo.output_world)
      /\ with_executor Demo.demo_block Demo.output_world
         = @sequential_chain Demo.discovery_ok "example.com" (PStr "output")
             (PStr "output") Demo.output_world).
Proof.
  split; [split; [lia|exact demo_run]|].
  exact (@executor_block_sequential Demo.discovery_ok 1 "example.com" (PStr "output")
           (PStr "output") Demo.output_world 10 Demo.demo_left (Nat.lt_0_succ 0) demo_run).
Defined.

(** A whole run of the script that works, and one that does not. *)
Lemma main_exit_status_witness :
  @parse_args Demo.all_goes_well ["-d"; "example.com"]
  = inl (mkNamespace "example.com" "output" "Fuzzingtemplates-/")
  /\ match setup_logging Demo.empty_world with
     | (Raise e, ws) =>
         @main Demo.all_goes_well ["-d"; "example.com"] Demo.empty_world = (Raise e, ws)
     | (Ok _, ws) =>
         match @process_target Demo.all_goes_well "example.com" (PStr "output")
                 (PStr "Fuzzingtemplates-/")
                 (add_log INFO "SpiderScan started."
                    (add_stdout (@banner_art Demo.all_goes_well) ws)) with
         | (Raise e, w1) =>
             @main Demo.all_goes_well ["-d"; "example.com"] Demo.empty_world
             = (Ok 1%Z,
                add_log ERROR
                  ("SpiderScan encountered an error: " +:+ @exn_str Demo.all_goes_well e) w1)
         | (Ok _, w1) =>
             @main Demo.all_goes_well ["-d"; "example.com"] Demo.empty_world
             = (Ok 0%Z, add_log INFO "SpiderScan completed successfully." w1)
         end
     end.
Proof.
  split; [reflexivity|].
  exact (@main_exit_status Demo.all_goes_well ["-d"; "example.com"]
           (mkNamespace "example.com" "output" "Fuzzingtemplates-/") Demo.empty_world
           eq_refl).
Defined.

Example main_all_goes_well :
  fst (@main Demo.all_goes_well ["-d"; "example.com"] Demo.empty_world) = Ok 0%Z
  /\ last (w_log (snd (@main Demo.all_goes_well ["-d"; "example.com"] Demo.empty_world)))
     = Some (INFO, "SpiderScan completed successfully.")
  /\ w_fs (snd (@main Demo.all_goes_well ["-d"; "example.com"] Demo.empty_world))
       !! ["output"; "urls.txt"] = Some (File Demo.two_urls)
  /\ w_fs (snd (@main Demo.all_goes_well ["-d"; "example.com"] Demo.empty_world))
       !! ["temp_urls.txt"] = None.
Proof. vm_compute. repeat split; reflexivity. Qed.

Example main_always_failing :
  fst (@main Demo.always_failing ["-d"; "example.com"] Demo.empty_world) = Ok 1%Z
  /\ last (w_log (snd (@main Demo.always_failing ["-d"; "example.com"] Demo.empty_world)))
     = Some (ERROR, "SpiderScan encountered an error: error")
  /\ spawned SubprocessRun
       "git clone https://github.com/0xKayala/ParamSpider.git ParamSpider"
       (w_trace (snd (@main Demo.always_failing ["-d"; "example.com"] Demo.empty_world)))
     = 3.
Proof. vm_compute. repeat split; reflexivity. Qed.

Example main_rejected_command_line :
  @main Demo.always_fine [] Demo.empty_world
  = (Ok 2%Z,
     mkWorld {[ ["spiderscan.log"] := File "" ]} [(INFO, "SpiderScan started.")]
       [EvOpen ["spiderscan.log"] ModeA] ["SpiderScan"]).
Proof. vm_compute. reflexivity. Qed.

(** The log file is opened before anything else: a directory at its
    place ends the run with the exception, before the banner. *)
Example main_log_is_a_directory :
  @main Demo.all_goes_well ["-d"; "example.com"] Demo.log_is_a_directory
  = (Raise (IsADirectoryError "spiderscan.log"),
     mkWorld {[ ["spiderscan.log"] := Dir ]} [] [EvOpen ["spiderscan.log"] ModeA] []).
Proof. vm_compute. reflexivity. Qed.

(** The log file of an earlier run is kept. *)
Example setup_logging_keeps_log :
  setup_logging (Demo.world_of {[ ["spiderscan.log"] := File "earlier" ]})
  = (Ok tt, mkWorld {[ ["spiderscan.log"] := File "earlier" ]} []
              [EvOpen ["spiderscan.log"] ModeA] []).
Proof. vm_compute. reflexivity. Qed.

(** The fetcher and the installer at work. *)
Example clone_repo_present :
  @clone_repo Demo.always_failing
    "https://github.com/MuhammadWaseem29/Fuzzingtemplates-.git" (PStr "Fuzzingtemplates-/")
    Demo.scan_world
  = (Ok tt, add_log INFO "Repository Fuzzingtemplates-/ already exists." Demo.scan_world).
Proof. vm_compute. reflexivity. Qed.

Example clone_repo_absent_flaky :
  fst (@clone_repo Demo.scanner_flaky "https://github.com/0xKayala/ParamSpider.git"
         (PStr "ParamSpider") Demo.scan_world) = Ok tt
  /\ w_trace (snd (@clone_repo Demo.scanner_flaky "https://github.com/0xKayala/ParamSpider.git"
                     (PStr "ParamSpider") Demo.scan_world))
     = runner_events "git clone https://github.com/0xKayala/ParamSpider.git ParamSpider" None 2.
Proof. vm_compute. split; reflexivity. Qed.


Example check_dependency_installed :
  @check_dependency Demo.always_fine "nuclei -version" "go install nuclei" Demo.empty_world
  = (Ok tt, mkWorld ∅ [] [EvSpawn SubprocessCall "nuclei -version" None] []).
Proof. vm_compute. reflexivity. Qed.

Example check_dependency_not_installed :
  w_trace (snd (@check_dependency Demo.scanner_flaky "nuclei -version" "go install nuclei"
                  Demo.empty_world))
  = [EvSpawn SubprocessCall "nuclei -version" None;
     EvSpawn SubprocessRun "go install nuclei" None]
  /\ w_log (snd (@check_dependency Demo.scanner_flaky "nuclei -version" "go install nuclei"
                   Demo.empty_world))
     = [(INFO, "nuclei -version not found. Installing...");
        (INFO, "Running command: go install nuclei"); (INFO, "")].
Proof. vm_compute. split; reflexivity. Qed.

(** * More concrete runs *)

Lemma run_command_first_success_witness :
  (returncode (@shell Demo.always_fine "true" None (w_trace Demo.empty_world)
                 (w_fs Demo.empty_world)) = 0%Z
   /\ @utf8_decode Demo.always_fine
        (stdout (@shell Demo.always_fine "true" None (w_trace Demo.empty_world)
                   (w_fs Demo.empty_world))) = Some "")
  /\ @run_command Demo.always_fine "true" None Demo.empty_world
     = (Ok tt,
        mkWorld (fs_after (@shell Demo.always_fine "true" None (w_trace Demo.empty_world)
                             (w_fs Demo.empty_world)))
          (w_log Demo.empty_world ++ [(INFO, "Running command: " +:+ "true"); (INFO, "")])
          (w_trace Demo.empty_world ++ [EvSpawn SubprocessRun "true" None])
          (w_stdout Demo.empty_world)).
Proof.
  split; [split; reflexivity|].
  exact (@run_command_first_success Demo.always_fine "true" Demo.empty_world ""
           eq_refl eq_refl).
Defined.

Lemma run_command_second_success_witness :
  (returncode (@shell Demo.scanner_flaky "nuclei" None (w_trace Demo.empty_world)
                 (w_fs Demo.empty_world)) <> 0%Z
   /\ returncode (@shell Demo.scanner_flaky "nuclei" None
                    (w_trace Demo.empty_world
                     ++ [EvSpawn SubprocessRun "nuclei" None; EvSleep 5000])
                    (fs_after (@shell Demo.scanner_flaky "nuclei" None
                                 (w_trace Demo.empty_world) (w_fs Demo.empty_world))))
      = 0%Z)
  /\ fst (@run_command Demo.scanner_flaky "nuclei" None Demo.empty_world) = Ok tt
  /\ w_trace (snd (@run_command Demo.scanner_flaky "nuclei" None Demo.empty_world))
     = w_trace Demo.empty_world ++ runner_events "nuclei" None 2.
Proof.
  assert (H1 : returncode (@shell Demo.scanner_flaky "nuclei" None (w_trace Demo.empty_world)
                             (w_fs Demo.empty_world)) <> 0%Z)
    by (vm_compute; discriminate).
  assert (H2 : returncode (@shell Demo.scanner_flaky "nuclei" None
                    (w_trace Demo.empty_world
                     ++ [EvSpawn SubprocessRun "nuclei" None; EvSleep 5000])
                    (fs_after (@shell Demo.scanner_flaky "nuclei" None
                                 (w_trace Demo.empty_world) (w_fs Demo.empty_world))))
               = 0%Z)
    by (vm_compute; reflexivity).
  split; [split; assumption|].
  destruct (@run_command_second_success Demo.scanner_flaky "nuclei" Demo.empty_world ""
              H1 H2 eq_refl) as (Hok & Htr & _).
  split; [exact Hok|exact Htr].
Defined.

Lemma run_command_undecodable_output_witness :
  (forall t fs,
     returncode (@shell Demo.undecodable "cat blob" None t fs) = 0%Z /\
     @utf8_decode Demo.undecodable (stdout (@shell Demo.undecodable "cat blob" None t fs))
     = None)
  /\ exists data w',
       @run_command Demo.undecodable "cat blob" None Demo.empty_world
       = (Raise (UnicodeDecodeError data), w')
       /\ w_trace w' = w_trace Demo.empty_world ++ runner_events "cat blob" None 3
       /\ spawned SubprocessRun "cat blob" (w_trace w')
          = spawned SubprocessRun "cat blob" (w_trace Demo.empty_world) + 3.
Proof.
  assert (Hbad : forall t fs,
     returncode (@shell Demo.undecodable "cat blob" None t fs) = 0%Z /\
     @utf8_decode Demo.undecodable (stdout (@shell Demo.undecodable "cat blob" None t fs))
     = None).
  { intros t fs. cbn. destruct (Demo.spawn_count t); split; reflexivity. }
  split; [exact Hbad|].
  exact (@run_command_undecodable_output Demo.undecodable "cat blob" Demo.empty_world Hbad).
Defined.

Lemma run_command_missing_cwd_witness :
  stat (w_fs Demo.empty_world) (parse_path "nowhere") = None
  /\ @run_command Demo.always_fine "ls" (Some "nowhere") Demo.empty_world
     = (Raise (FileNotFoundError "nowhere"),
        mkWorld (w_fs Demo.empty_world)
          (w_log Demo.empty_world ++ [(INFO, "Running command: " +:+ "ls");
                                      (INFO, "Running command: " +:+ "ls");
                                      (INFO, "Running command: " +:+ "ls")])
          (w_trace Demo.empty_world ++ [EvSleep 5000; EvSleep 5000])
          (w_stdout Demo.empty_world)).
Proof.
  assert (Hd : stat (w_fs Demo.empty_world) (parse_path "nowhere") = None)
    by (vm_compute; reflexivity).
  split; [exact Hd|].
  exact (@run_command_missing_cwd Demo.always_fine "ls" "nowhere" Demo.empty_world Hd).
Defined.

Lemma collect_urls_succeeds_iff_witness :
  @run_command Demo.discovery_ok (discovery_command "example.com") None
    (add_log INFO ("Collecting URLs for domain: " +:+ "example.com") Demo.output_world)
  = (Ok tt, Demo.discovered)
  /\ (fst (@collect_urls Demo.discovery_ok "example.com" (PStr "output") Demo.output_world)
      = Ok tt
      <-> (exists c, w_fs Demo.discovered !! temp_path = Some (File c)
                     /\ @locale_ok Demo.discovery_ok c = true)
          /\ stat (w_fs Demo.discovered) (Path (PStr "output")) = Some Dir
          /\ w_fs Demo.discovered !! urls_txt (PStr "output") <> Some Dir).
Proof.
  assert (H1 : @run_command Demo.discovery_ok (discovery_command "example.com") None
                 (add_log INFO ("Collecting URLs for domain: " +:+ "example.com")
                    Demo.output_world)
               = (Ok tt, Demo.discovered))
    by (vm_compute; reflexivity).
  split; [exact H1|].
  exact (@collect_urls_succeeds_iff Demo.discovery_ok "example.com" (PStr "output")
           Demo.output_world Demo.discovered H1).
Defined.

(** Without an output directory the copy fails, and the temporary file
    stays behind. *)
Lemma collect_urls_raise_keeps_files_witness :
  @collect_urls Demo.discovery_ok "example.com" (PStr "output") Demo.empty_world
  = (Raise (FileNotFoundError "output/urls.txt"), Demo.collect_failed)
  /\ w_fs Demo.collect_failed
     = w_fs (snd (@run_command Demo.discovery_ok (discovery_command "example.com") None
                    (add_log INFO ("Collecting URLs for domain: " +:+ "example.com")
                       Demo.empty_world)))
  /\ w_fs Demo.collect_failed !! temp_path = Some (File Demo.two_urls).
Proof.
  assert (H1 : @collect_urls Demo.discovery_ok "example.com" (PStr "output") Demo.empty_world
               = (Raise (FileNotFoundError "output/urls.txt"), Demo.collect_failed))
    by (vm_compute; reflexivity).
  split; [exact H1|].
  destruct (@collect_urls_raise_keeps_files Demo.discovery_ok "example.com" (PStr "output")
              Demo.empty_world _ _ H1) as [Hfs Htmp].
  split; [exact Hfs|].
  apply Htmp. vm_compute. reflexivity.
Defined.

Lemma collect_urls_output_normal_witness :
  @collect_urls Demo.discovery_ok "example.com" (PStr "output") Demo.output_world
  = (Ok tt, Demo.collected_world)
  /\ exists c',
       w_fs Demo.collected_world !! urls_txt (PStr "output") = Some (File c')
       /\ has_char CR c' = false
       /\ writelines (readlines c') = c'.
Proof.
  assert (H1 : @collect_urls Demo.discovery_ok "example.com" (PStr "output") Demo.output_world
               = (Ok tt, Demo.collected_world))
    by (vm_compute; reflexivity).
  split; [exact H1|].
  exact (@collect_urls_output_normal Demo.discovery_ok "example.com" (PStr "output")
           Demo.output_world tt Demo.collected_world H1).
Defined.

Lemma process_target_output_is_file_witness :
  stat (w_fs Demo.file_in_the_way) (Path (PStr "output")) = Some (File "")
  /\ @process_target Demo.all_goes_well "example.com" (PStr "output")
       (PStr "Fuzzingtemplates-/") Demo.file_in_the_way
     = (Raise (FileExistsError (path_str (Path (PStr "output")))),
        add_event (EvMkdir (Path (PStr "output"))) Demo.file_in_the_way).
Proof.
  assert (Hs : stat (w_fs Demo.file_in_the_way) (Path (PStr "output")) = Some (File ""))
    by (vm_compute; reflexivity).
  split; [exact Hs|].
  exact (@process_target_output_is_file Demo.all_goes_well "example.com" (PStr "output")
           (PStr "Fuzzingtemplates-/") Demo.file_in_the_way "" Hs).
Defined.

Lemma process_target_return_means_ran_witness :
  @process_target Demo.all_goes_well "example.com" (PStr "output")
    (PStr "Fuzzingtemplates-/") Demo.empty_world = (Ok tt, Demo.target_done)
  /\ (spawned SubprocessRun "pip install -r ParamSpider/requirements.txt"
        (w_trace Demo.empty_world) + 1
      <= spawned SubprocessRun "pip install -r ParamSpider/requirements.txt"
           (w_trace Demo.target_done)
      /\ spawned SubprocessCall "nuclei -version" (w_trace Demo.empty_world) + 1
         <= spawned SubprocessCall "nuclei -version" (w_trace Demo.target_done)
      /\ spawned SubprocessRun (discovery_command "example.com") (w_trace Demo.empty_world) + 1
         <= spawned SubprocessRun (discovery_command "example.com") (w_trace Demo.target_done)
      /\ spawned SubprocessRun
           (scanner_command (PPath (urls_txt (PStr "output"))) (PStr "Fuzzingtemplates-/"))
           (w_trace Demo.empty_world) + 1
         <= spawned SubprocessRun
              (scanner_command (PPath (urls_txt (PStr "output")))
                 (PStr "Fuzzingtemplates-/"))
              (w_trace Demo.target_done)).
Proof.
  assert (H1 : @process_target Demo.all_goes_well "example.com" (PStr "output")
                 (PStr "Fuzzingtemplates-/") Demo.empty_world = (Ok tt, Demo.target_done))
    by (vm_compute; reflexivity).
  split; [exact H1|].
  exact (@process_target_return_means_ran Demo.all_goes_well "example.com" (PStr "output")
           (PStr "Fuzzingtemplates-/") Demo.empty_world tt Demo.target_done H1).
Defined.

Lemma main_status_zero_witness :
  (@parse_args Demo.all_goes_well ["-d"; "example.com"]
   = inl (mkNamespace "example.com" "output" "Fuzzingtemplates-/")
   /\ @main Demo.all_goes_well ["-d"; "example.com"] Demo.empty_world
      = (Ok 0%Z, Demo.main_done))
  /\ (spawned SubprocessRun (discovery_command "example.com") (w_trace Demo.empty_world) + 1
      <= spawned SubprocessRun (discovery_command "example.com") (w_trace Demo.main_done)
      /\ spawned SubprocessRun
           (scanner_command (PPath (urls_txt (PStr "output"))) (PStr "Fuzzingtemplates-/"))
           (w_trace Demo.empty_world) + 1
         <= spawned SubprocessRun
              (scanner_command (PPath (urls_txt (PStr "output")))
                 (PStr "Fuzzingtemplates-/"))
              (w_trace Demo.main_done)
      /\ last (w_log Demo.main_done) = Some (INFO, "SpiderScan completed successfully.")).
Proof.
  assert (H2 : @main Demo.all_goes_well ["-d"; "example.com"] Demo.empty_world
               = (Ok 0%Z, Demo.main_done))
    by (vm_compute; reflexivity).
  split; [split; [reflexivity|exact H2]|].
  exact (@main_status_zero Demo.all_goes_well ["-d"; "example.com"]
           (mkNamespace "example.com" "output" "Fuzzingtemplates-/")
           Demo.empty_world Demo.main_done eq_refl H2).
Defined.

(** The bounds on the cost of a run are reached when every command
    works at its third attempt only. *)
Example process_target_cost_reached :
  fst (@process_target Demo.third_time_lucky "example.com" (PStr "output")
         (PStr "Fuzzingtemplates-/") Demo.empty_world) = Ok tt
  /\ count_spawns (w_trace (snd (@process_target Demo.third_time_lucky "example.com"
                                   (PStr "output") (PStr "Fuzzingtemplates-/")
                                   Demo.empty_world))) = 19
  /\ slept_ms (w_trace (snd (@process_target Demo.third_time_lucky "example.com"
                               (PStr "output") (PStr "Fuzzingtemplates-/")
                               Demo.empty_world))) = 60000%Z.
Proof. vm_compute. repeat split; reflexivity. Qed.
